(** * cocos-engine: the asset library facade and the sub-context view

    A shallow embedding of [cocos/core/assets/asset-library.ts] and of the
    [SubContextView] component, with the properties of their URL
    composition, registry lookups, callback dispatch and frame-driven
    texture refresh.

    Conventions of the embedding:
    - a JavaScript number is an IEEE-754 binary64 value, [float], with the
      primitive operations of [PrimFloat]; [===] on numbers is
      [PrimFloat.eqb] (so [NaN] differs from itself and [+0 === -0]);
    - a JavaScript string is a [string]; its characters stand for code units
      below 256, on which [encodeURIComponent] never throws;
    - an object used as a dictionary is a [gmap] over its own properties;
    - calls that leave the two modules (loader, debug console, scene graph,
      open data context) are recorded as effects, in call order. *)

From Stdlib Require Import ZArith String Ascii List Floats Bool.
From stdpp Require Import base gmap strings list.

Local Open Scope string_scope.

(** ** JavaScript values and the string built-ins the modules use *)

Module Js.

(** The values that cross the modules' interfaces untyped: callback
    arguments, loader results, [uuid] before its [typeof] test. *)
Inductive Value : Type :=
| Undefined
| Null
| Boolean (b : bool)
| Number (n : float)
| Str (s : string)
| ErrorObj (message : string) (errorCode : option string)
                                         (* [new Error(message)], with the
     [errorCode] the editor query attaches to it *)
| AssetObj (isSceneAsset hasScene : bool) (* an asset instance: is its
     constructor [SceneAsset], is its [scene] field truthy *)
| Obj (id : positive).                   (* any other object *)

(** [ToBoolean]. *)
Definition truthy (v : Value) : bool :=
  match v with
  | Undefined | Null => false
  | Boolean b => b
  | Number n => negb (PrimFloat.eqb n 0%float || negb (PrimFloat.eqb n n))
  | Str s => negb (String.eqb s "")
  | ErrorObj _ _ | AssetObj _ _ | Obj _ => true
  end.

(** The one-character string holding a double quote. *)
Definition dquote : string := String (ascii_of_nat 34) EmptyString.


(** [v.constructor === SceneAsset]. *)
Definition isSceneAsset (v : Value) : bool :=
  match v with AssetObj true _ => true | _ => false end.

(** [!v.scene] for an asset [v]. *)
Definition lacksScene (v : Value) : bool :=
  match v with AssetObj _ hasScene => negb hasScene | _ => true end.

(** [typeof v === 'string']. *)
Definition isString (v : Value) : option string :=
  match v with Str s => Some s | _ => None end.

(** ['' + v.message] for a truthy [v]: the message of an [Error], and
    ["undefined"] for a value without that property. *)
Definition messageText (v : Value) : string :=
  match v with ErrorObj m _ => m | _ => "undefined" end.

(** [s.split(sep)] for a one-character separator. *)
Fixpoint split (sep : ascii) (s : string) : list string :=
  match s with
  | EmptyString => [EmptyString]
  | String c r =>
      if Ascii.eqb c sep then EmptyString :: split sep r
      else match split sep r with
           | h :: t => String c h :: t
           | [] => [String c EmptyString]
           end
  end.

(** A string is one segment when it holds no separator. *)
Definition oneSegment (sep : ascii) (s : string) : Prop := split sep s = [s].

(** [l.join(sep)]. *)
Fixpoint join (sep : string) (l : list string) : string :=
  match l with
  | [] => EmptyString
  | [x] => x
  | x :: r => x +:+ sep +:+ join sep r
  end.

(** [s.slice(b, e)] for [0 <= b <= e]. *)
Definition slice (s : string) (b e : nat) : string :=
  String.substring b (e - b) s.

(** [s.replace(/\\/g, '/')]. *)
Fixpoint backslashesToSlashes (s : string) : string :=
  match s with
  | EmptyString => EmptyString
  | String c r =>
      String (if Ascii.eqb c (ascii_of_nat 92) then "/"%char else c) (backslashesToSlashes r)
  end.

Definition hexDigit (n : N) : ascii :=
  if (n <? 10)%N then ascii_of_N (48 + n) else ascii_of_N (55 + n).

(** ["%XX"], upper-case, as [encodeURIComponent] writes an octet. *)
Definition percent (octet : N) : string :=
  String "%" (String (hexDigit (octet / 16)) (String (hexDigit (octet mod 16)) EmptyString)).

(** The characters [encodeURIComponent] leaves alone:
    [A-Z a-z 0-9 - _ . ! ~ * ' ( )]. *)
Definition unreserved (c : N) : bool :=
  ((65 <=? c) && (c <=? 90) || (97 <=? c) && (c <=? 122) || (48 <=? c) && (c <=? 57)
   || (c =? 45) || (c =? 95) || (c =? 46) || (c =? 33) || (c =? 126)
   || (c =? 42) || (c =? 39) || (c =? 40) || (c =? 41))%N.

(** One code unit below 256 through [encodeURIComponent]: kept, or its
    UTF-8 octets (one below 128, two from 128 on) percent-escaped. *)
Definition encodeUnit (a : ascii) : string :=
  let c := N_of_ascii a in
  if unreserved c then String a EmptyString
  else if (c <? 128)%N then percent c
  else percent (192 + c / 64) +:+ percent (128 + c mod 64).

Fixpoint encodeURIComponent (s : string) : string :=
  match s with
  | EmptyString => EmptyString
  | String a r => encodeUnit a +:+ encodeURIComponent r
  end.

End Js.


(** ** Build-time constants ([internal:constants]) *)

Class Constants := {
  EDITOR : bool;
  TEST : bool;
  BUILD : bool
}.

(** ** The asset library *)

Module AssetLibrary.

(** What the module imports from the rest of the engine. *)
Class Host := {
  Ctor : Type;          (* class constructors *)
  Callback : Type;      (* the caller's callback functions *)
  AssetTable : Type;    (* load-pipeline/asset-table *)
  SubPackages : Type;
  PackedAssets : Type;
  decodeUuid : string -> string;                 (* utils/decode-uuid *)
  _getClassById : string -> option Ctor;         (* utils/js *)
  getClassByName : string -> option Ctor;
  isChildClassOf : Ctor -> Ctor -> bool;
  Asset : Ctor;
  stripSep : string -> string;                   (* path.stripSep *)
  AssetTable_new : AssetTable;
  AssetTable_reset : AssetTable -> AssetTable;
  AssetTable_add : string -> string -> Ctor -> bool -> AssetTable -> AssetTable
}.

Section Library.
Context `{C : Constants} `{H : Host}.

(** [function RawAssetEntry (url, type)]. *)
Record RawAssetEntry := { entry_url : string; entry_type : Ctor }.

(** The module-level variables, the [_uuidToAsset] cache and the
    loader's [_assetTables], which [init] fills. *)
Record State := {
  _libraryBase : string;
  _rawAssetsBase : string;
  _uuidToRawAsset : gmap string RawAssetEntry;
  _uuidToAsset : gmap string Js.Value;
  _assetTables : gmap string AssetTable
}.

(** The item handed to [loader.load]. *)
Record LoadItem := {
  item_uuid : string;
  item_type : string;
  item_existingAsset : option Js.Value
}.

(** What the editor's asset database answers to a query. *)
Record EditorInfo := { editor_type : string; editor_uuid : string }.

(** Calls that leave the module. An asynchronous call carries the
    function the module passes as its completion handler. *)
#[local] Unset Elimination Schemes.
Inductive Effect : Type :=
| CallInNextTick (callback : option Callback) (p1 p2 : Js.Value)
| LoaderLoad (item : LoadItem) (onLoaded : Js.Value -> Js.Value -> list Effect)
| LoadCallback (callback : Callback) (error asset : Js.Value)
| QueryCallback (callback : Callback) (error : Js.Value)
    (url : option string) (raw : option bool) (ctorInEditor : option Ctor)
| EditorQueryAssetInfo (uuid : string)
    (onInfo : Js.Value -> EditorInfo -> list Effect)
| DebugError (args : list Js.Value)
| DebugErrorID (id : Z)
| InsertMd5Pipe (md5ImportMap md5RawAssetsMap : gmap string (option string))
    (libraryBase : string)
| SetSubPackages (subPackages : SubPackages)
| InsertSubPackPipe (subPackages : SubPackages)
| InitPacks (packedAssets : PackedAssets)
| UrlInit (assets : string).
#[local] Set Elimination Schemes.

(** *** loadAsset *)

(** The arrow function passed to [loader.load]. *)
Definition loadAsset_onLoaded (uuid : string) (callback : option Callback)
    (error asset : Js.Value) : list Effect :=
  let failed := Js.truthy error || negb (Js.truthy asset) in
  let error' :=
    if failed then
      Js.ErrorObj ("[AssetLibrary] loading JSON or dependencies failed: "
                   +:+ (if Js.truthy error then Js.messageText error else "Unknown error"))
                  None
    else error in
  (if failed then []
   else if Js.isSceneAsset asset then
     if EDITOR && Js.lacksScene asset
     then [DebugError [Js.Str ("Sorry, the scene data of " +:+ Js.dquote +:+ "%s"
                               +:+ Js.dquote +:+ " is corrupted!");
                       Js.Str uuid]]
     else []
   else [])
  ++ match callback with
     | Some cb => [LoadCallback cb error' asset]
     | None => []
     end.

(** [options] is given by its [existingAsset] field, [None] when
    [options] is omitted. *)
Definition loadAsset (uuid : Js.Value) (callback : option Callback)
    (options : option Js.Value) : list Effect :=
  match Js.isString uuid with
  | None =>
      [CallInNextTick callback
         (Js.ErrorObj "[AssetLibrary] uuid must be string" None) Js.Null]
  | Some u =>
      let item := {| item_uuid := u; item_type := "uuid";
                     item_existingAsset :=
                       match options with
                       | Some existing => if Js.truthy existing then Some existing else None
                       | None => None
                       end |} in
      [LoaderLoad item (loadAsset_onLoaded u callback)]
  end.

(** *** getLibUrlNoExt *)

(** [uuid.split('@').map(encodeURIComponent).join('@')]. *)
Definition encodeSegments (uuid : string) : string :=
  Js.join "@" (map Js.encodeURIComponent (Js.split "@" uuid)).

(** An omitted [inRawAssetsDir] is [false]. *)
Definition getLibUrlNoExt (st : State) (uuid : string) (inRawAssetsDir : bool) : string :=
  let uuid := if BUILD then decodeUuid uuid else uuid in
  let uuid := encodeSegments uuid in
  let base := if BUILD && inRawAssetsDir
              then _rawAssetsBase st +:+ "assets/"
              else _libraryBase st in
  base +:+ Js.slice uuid 0 2 +:+ "/" +:+ uuid.

(** *** queryAssetInfo *)

(** The arrow function passed to [EditorExtends.Asset.queryAssetInfo]. *)
Definition _queryAssetInfoInEditor_onInfo (uuid : string) (callback : Callback)
    (error : Js.Value) (info : EditorInfo) : list Effect :=
  if Js.truthy error then
    let loadError :=
      Js.ErrorObj ("Can not get asset url by uuid " +:+ Js.dquote +:+ uuid
                   +:+ Js.dquote +:+ ", the asset may be deleted.")
                  (Some "db.NOTFOUND") in
    [DebugError [error]; QueryCallback callback loadError None None None]
  else
    match getClassByName (editor_type info) with
    | Some ctor =>
        let isRawAsset := negb (isChildClassOf ctor Asset) in
        let url := "import://" +:+ String.substring 0 2 (editor_uuid info)
                   +:+ "/" +:+ editor_uuid info +:+ ".json" in
        [QueryCallback callback Js.Null (Some url) (Some isRawAsset) (Some ctor)]
    | None =>
        [QueryCallback callback
           (Js.ErrorObj ("Can not find asset type " +:+ editor_type info) None)
           None None None]
    end.

Definition _queryAssetInfoInEditor (uuid : string) (callback : Callback) : list Effect :=
  if EDITOR then
    [EditorQueryAssetInfo uuid (_queryAssetInfoInEditor_onInfo uuid callback)]
  else
    [QueryCallback callback
       (Js.ErrorObj "Unable to load resource: EditorExtends is not defined." None)
       None None None].

(** The [result] object of [_getAssetInfoInRuntime]. *)
Record AssetInfo := { info_url : option string; info_raw : bool }.

Definition set_info (url : string) (raw : bool) (result : AssetInfo) : AssetInfo :=
  let result := {| info_url := Some url; info_raw := info_raw result |} in
  {| info_url := info_url result; info_raw := raw |}.

Definition _getAssetInfoInRuntime (st : State) (uuid : string)
    (result : option AssetInfo) : AssetInfo :=
  let result := default {| info_url := None; info_raw := false |} result in
  let fromLibrary := set_info (getLibUrlNoExt st uuid false +:+ ".json") false result in
  match _uuidToRawAsset st !! uuid with
  | Some info =>
      if negb (isChildClassOf (entry_type info) Asset) then
        (* backward compatibility since 1.10 *)
        set_info (_rawAssetsBase st +:+ entry_url info) true result
      else fromLibrary
  | None => fromLibrary
  end.

(** [uuid in _uuidToRawAsset]. *)
Definition _uuidInSettings (st : State) (uuid : string) : bool :=
  bool_decide (is_Some (_uuidToRawAsset st !! uuid)).

Definition queryAssetInfo (st : State) (uuid : string) (callback : Callback)
    : list Effect :=
  if EDITOR && negb TEST then _queryAssetInfoInEditor uuid callback
  else
    let info := _getAssetInfoInRuntime st uuid None in
    [QueryCallback callback Js.Null (info_url info) (Some (info_raw info)) None].

(** *** getAssetByUuid *)


(** *** init *)

(** One value of [options.rawAssets[mountPoint]]: the array
    [[url, typeId, isSubAsset?]]. *)
Record RawInfo := { raw_url : string; raw_typeId : string; raw_2 : option Z }.

Record Md5AssetsMap := {
  md5_import : option (list string);
  md5_raw_assets : option (list string)
}.

(** [options]. The two levels of [rawAssets] are listed in [for-in]
    order; [mountPaths_assets] is [options.mountPaths.assets] where
    both exist. *)
Record Options := {
  libraryPath : string;
  rawAssetsBase : string;
  md5AssetsMap : option Md5AssetsMap;
  subPackages : option SubPackages;
  rawAssets : option (list (string * list (string * RawInfo)));
  packedAssets : option PackedAssets;
  mountPaths_assets : option string
}.

(** How a call ends. *)
Inductive Outcome : Type := Returned | Threw (error : string).

(** The loops over [md5Entries], two slots at a time; a missing second
    slot reads as [undefined]. *)
Fixpoint md5Map (md5Entries : list string) (m : gmap string (option string))
    : gmap string (option string) :=
  match md5Entries with
  | [] => m
  | [k] => <[encodeSegments (decodeUuid k) := None]> m
  | k :: v :: rest => md5Map rest (<[encodeSegments (decodeUuid k) := Some v]> m)
  end.

Definition set_tables (tables : gmap string AssetTable) (st : State) : State :=
  {| _libraryBase := _libraryBase st; _rawAssetsBase := _rawAssetsBase st;
     _uuidToRawAsset := _uuidToRawAsset st; _uuidToAsset := _uuidToAsset st;
     _assetTables := tables |}.

Definition set_rawAsset (uuid : string) (entry : RawAssetEntry) (st : State) : State :=
  {| _libraryBase := _libraryBase st; _rawAssetsBase := _rawAssetsBase st;
     _uuidToRawAsset := <[uuid := entry]> (_uuidToRawAsset st);
     _uuidToAsset := _uuidToAsset st; _assetTables := _assetTables st |}.

Definition set_bases (libraryBase rawBase : string) (st : State) : State :=
  {| _libraryBase := libraryBase; _rawAssetsBase := rawBase;
     _uuidToRawAsset := _uuidToRawAsset st; _uuidToAsset := _uuidToAsset st;
     _assetTables := _assetTables st |}.

(** The body of the inner [for (const uuid in assets)] loop. *)
Definition addRawAsset (mountPoint : string) (acc : State * list Effect)
    (asset : string * RawInfo) : State * list Effect :=
  let '(st, log) := acc in
  let '(uuid, info) := asset in
  let url := raw_url info in
  let typeId := raw_typeId info in
  match _getClassById typeId with
  | None => (st, (log ++ [DebugError [Js.Str "Cannot get"; Js.Str typeId]])%list)
  | Some type =>
      (* backward compatibility since 1.10 *)
      let st := set_rawAsset uuid {| entry_url := mountPoint +:+ "/" +:+ url;
                                     entry_type := type |} st in
      (* init resources *)
      let isSubAsset := bool_decide (raw_2 info = Some 1%Z) in
      let tables :=
        match _assetTables st !! mountPoint with
        | None => <[mountPoint := AssetTable_new]> (_assetTables st)
        | Some _ => _assetTables st
        end in
      let tables :=
        alter (AssetTable_add url uuid type (negb isSubAsset)) mountPoint tables in
      (set_tables tables st, log)
  end.

(** [for (const mountPoint in rawAssets) for (const uuid in assets)]. *)
Definition addRawAssets (rawAssets : list (string * list (string * RawInfo)))
    (acc : State * list Effect) : State * list Effect :=
  fold_left (fun acc mount => fold_left (addRawAsset (fst mount)) (snd mount) acc)
            rawAssets acc.

Definition init (options : Options) (st : State) : State * list Effect * Outcome :=
  if EDITOR && Js.truthy (Js.Str (_libraryBase st)) then
    (st, [DebugErrorID 6402], Returned)
  else
    let libraryPath := Js.backslashesToSlashes (libraryPath options) in
    let st := set_bases (stripSep libraryPath +:+ "/") (rawAssetsBase options) st in
    let md5 : option (list Effect) :=
      match md5AssetsMap options with
      | Some {| md5_import := Some importEntries; md5_raw_assets := rawEntries |} =>
          match rawEntries with
          | Some rawEntries =>
              Some [InsertMd5Pipe (md5Map importEntries ∅) (md5Map rawEntries ∅)
                                  (_libraryBase st)]
          | None => None
          end
      | _ => Some []
      end in
    match md5 with
    | None => (st, [], Threw "TypeError")
    | Some md5Log =>
        let subLog :=
          match subPackages options with
          | Some sp => [SetSubPackages sp; InsertSubPackPipe sp]
          | None => []
          end in
        (* init raw assets *)
        let st := set_tables (AssetTable_reset <$> _assetTables st) st in
        let '(st, log) :=
          match rawAssets options with
          | Some rawAssets => addRawAssets rawAssets (st, (md5Log ++ subLog)%list)
          | None => (st, (md5Log ++ subLog)%list)
          end in
        let packLog :=
          match packedAssets options with
          | Some packs => [InitPacks packs]
          | None => []
          end in
        (* init cc.url *)
        let assets :=
          match mountPaths_assets options with
          | Some a => if Js.truthy (Js.Str a) then a else _rawAssetsBase st +:+ "assets"
          | None => _rawAssetsBase st +:+ "assets"
          end in
        (st, (log ++ packLog ++ [UrlInit assets])%list, Returned)
    end.

(** *** The documented behaviour, to compare with the code *)

(** The url as documented: the segments of [uuid] itself are encoded. *)
Definition getLibUrlNoExt_spec (st : State) (uuid : string) (inRawAssetsDir : bool)
    : string :=
  let processed :=
    Js.join "@" (map Js.encodeURIComponent (Js.split "@" uuid)) in
  let base := if BUILD && inRawAssetsDir
              then _rawAssetsBase st +:+ "assets/"
              else _libraryBase st in
  base +:+ Js.slice processed 0 2 +:+ "/" +:+ processed.

(** The entries of [options.rawAssets], [(mountPoint, uuid, info)], in
    the order the two loops meet them. *)
Definition rawAssetEntries (rawAssets : list (string * list (string * RawInfo)))
    : list (string * string * RawInfo) :=
  concat (map (fun mount => map (fun asset => (fst mount, fst asset, snd asset))
                                (snd mount))
              rawAssets).

(** The loop body on a listed entry. *)
Definition addRawEntry (acc : State * list Effect) (e : string * string * RawInfo)
    : State * list Effect :=
  addRawAsset (fst (fst e)) acc (snd (fst e), snd e).

(** The registry entry an [(mountPoint, uuid, info)] stands for, when
    its type id resolves. *)
Definition rawAssetEntryOf (mountPoint : string) (info : RawInfo) : option RawAssetEntry :=
  match _getClassById (raw_typeId info) with
  | Some type => Some {| entry_url := mountPoint +:+ "/" +:+ raw_url info;
                         entry_type := type |}
  | None => None
  end.

(** What the registry holds for [uuid] after the entries: the last
    resolved one filed under [uuid], else what it held before. *)
Fixpoint registered (entries : list (string * string * RawInfo)) (uuid : string)
    (before : option RawAssetEntry) : option RawAssetEntry :=
  match entries with
  | [] => before
  | (mountPoint, u, info) :: rest =>
      registered rest uuid
        (if String.eqb u uuid then
           match rawAssetEntryOf mountPoint info with
           | Some e => Some e
           | None => before
           end
         else before)
  end.

End Library.
End AssetLibrary.

(** ** The sub-context view *)

Module SubContextView.

(** [math]: [Size] and [Rect], by their fields. *)
Record Size := { width : float; height : float }.
Record Rect := { x : float; y : float; rect_width : float; rect_height : float }.

(** The shared canvas of the open data context, and the context itself. *)
Record Canvas := { canvas_width : float; canvas_height : float }.
Record OpenDataContext := { canvas : Canvas }.

Record SystemInfo := { screenWidth : float; screenHeight : float }.

(** [window.__globalAdapter]: each field is [None] when the adapter lacks
    the function, and otherwise what the function returns. *)
Record Adapter := {
  getOpenDataContext : option (option OpenDataContext);
  getSystemInfoSync : option SystemInfo
}.

(** The object passed to [postMessage]. *)
Record Message := {
  fromEngine : bool;
  msg_type : string;
  msg_event : string;
  msg_x : float; msg_y : float; msg_width : float; msg_height : float
}.

Inductive NodeEventType : Type := TRANSFORM_CHANGED | SIZE_CHANGED.

Definition NodeEventType_eqb (a b : NodeEventType) : bool :=
  match a, b with
  | TRANSFORM_CHANGED, TRANSFORM_CHANGED | SIZE_CHANGED, SIZE_CHANGED => true
  | _, _ => false
  end.

(** The classes of the engine the component calls into. *)
Class Host := {
  Size_equals : Size -> Size -> bool;   (* [a.equals(b)] *)
  Size_set : Size -> Size -> Size;      (* [a] after [a.set(b)] *)
  ImageAsset : Type;
  ImageAsset_new : ImageAsset;
  image_width : ImageAsset -> float;
  image_height : ImageAsset -> float;
  image_reset : Canvas -> ImageAsset -> ImageAsset;
  texture_create : float -> float -> ImageAsset -> ImageAsset;
  texture_uploadData : Canvas -> ImageAsset -> ImageAsset
}.

(** What a method reads from outside the component when it runs: the
    platform adapter, the size of [this.node] and of the content node,
    the world bounding box of the content node once it has a given size,
    and the visible size of the view. *)
Record Env := {
  adapter : option Adapter;
  node_width : float;
  node_height : float;
  content_width : float;
  content_height : float;
  getBoundingBoxToWorld : float -> float -> Rect;
  getVisibleSize : Size
}.

(** The sprite of the content node. *)
Record Sprite := { spriteFrame : option unit }.
Inductive SpriteRef : Type := ContentSprite.

(** [_content]: its [Sprite] component, if added, and whether it has
    been attached to [this.node]. *)
Record PrivateNode := { node_sprite : option Sprite; node_parent : bool }.

Section Component.
Context `{C : Constants} `{H : Host}.

Record State := {
  _fps : float;
  _sprite : option SpriteRef;
  _imageAsset : ImageAsset;
  _updatedTime : float;
  _updateInterval : float;
  _openDataContext : option OpenDataContext;
  _content : PrivateNode;
  _designResolutionSize : Size;
  enabled : bool;
  listeners : list NodeEventType  (* the events of [this.node] on which
                                     [_updateSubContextView] is registered *)
}.

(** Calls on objects outside the component. *)
Inductive Effect : Type :=
| ImageReset (data : Canvas)
| TextureCreate (w h : float)
| TextureUploadData (source : Canvas)
| AddSprite
| SetSpriteFrameTexture
| NewSpriteFrame
| SetContentParent
| SetContentWidth (w : float)
| SetContentHeight (h : float)
| PostMessage (message : Message)
| NodeOn (type : NodeEventType)
| NodeOff (type : NodeEventType).

(** A method body: it reads and updates the fields and issues calls. *)
Definition M (A : Type) : Type := State -> A * State * list Effect.

Definition ret {A} (a : A) : M A := fun s => (a, s, []).

Definition bind {A B} (m : M A) (k : A -> M B) : M B :=
  fun s =>
    let '(a, s1, l1) := m s in
    let '(b, s2, l2) := k a s1 in
    (b, s2, (l1 ++ l2)%list).

Definition get : M State := fun s => (s, s, []).
Definition modify (f : State -> State) : M unit := fun s => (tt, f s, []).
Definition call (e : Effect) : M unit := fun s => (tt, s, [e]).

Definition state_of {A} (r : A * State * list Effect) : State := snd (fst r).
Definition effects_of {A} (r : A * State * list Effect) : list Effect := snd r.

Notation "'let*' x := m 'in' k" := (bind m (fun x => k))
  (at level 10, x name, m at level 100, k at level 200).
Notation "m >> k" := (bind m (fun _ => k))
  (at level 65, right associativity).

(** Field assignments. *)
Definition set_fps_fields (fps interval : float) (s : State) : State :=
  {| _fps := fps; _sprite := _sprite s; _imageAsset := _imageAsset s;
     _updatedTime := _updatedTime s; _updateInterval := interval;
     _openDataContext := _openDataContext s; _content := _content s;
     _designResolutionSize := _designResolutionSize s; enabled := enabled s;
     listeners := listeners s |}.

Definition set_updatedTime (t : float) (s : State) : State :=
  {| _fps := _fps s; _sprite := _sprite s; _imageAsset := _imageAsset s;
     _updatedTime := t; _updateInterval := _updateInterval s;
     _openDataContext := _openDataContext s; _content := _content s;
     _designResolutionSize := _designResolutionSize s; enabled := enabled s;
     listeners := listeners s |}.

Definition set_imageAsset (img : ImageAsset) (s : State) : State :=
  {| _fps := _fps s; _sprite := _sprite s; _imageAsset := img;
     _updatedTime := _updatedTime s; _updateInterval := _updateInterval s;
     _openDataContext := _openDataContext s; _content := _content s;
     _designResolutionSize := _designResolutionSize s; enabled := enabled s;
     listeners := listeners s |}.

Definition set_openDataContext (ctx : option OpenDataContext) (s : State) : State :=
  {| _fps := _fps s; _sprite := _sprite s; _imageAsset := _imageAsset s;
     _updatedTime := _updatedTime s; _updateInterval := _updateInterval s;
     _openDataContext := ctx; _content := _content s;
     _designResolutionSize := _designResolutionSize s; enabled := enabled s;
     listeners := listeners s |}.

Definition set_content (sprite : option SpriteRef) (content : PrivateNode) (s : State)
    : State :=
  {| _fps := _fps s; _sprite := sprite; _imageAsset := _imageAsset s;
     _updatedTime := _updatedTime s; _updateInterval := _updateInterval s;
     _openDataContext := _openDataContext s; _content := content;
     _designResolutionSize := _designResolutionSize s; enabled := enabled s;
     listeners := listeners s |}.

Definition set_size (size : Size) (s : State) : State :=
  {| _fps := _fps s; _sprite := _sprite s; _imageAsset := _imageAsset s;
     _updatedTime := _updatedTime s; _updateInterval := _updateInterval s;
     _openDataContext := _openDataContext s; _content := _content s;
     _designResolutionSize := size; enabled := enabled s;
     listeners := listeners s |}.

Definition set_enabled (b : bool) (s : State) : State :=
  {| _fps := _fps s; _sprite := _sprite s; _imageAsset := _imageAsset s;
     _updatedTime := _updatedTime s; _updateInterval := _updateInterval s;
     _openDataContext := _openDataContext s; _content := _content s;
     _designResolutionSize := _designResolutionSize s; enabled := b;
     listeners := listeners s |}.

Definition set_listeners (l : list NodeEventType) (s : State) : State :=
  {| _fps := _fps s; _sprite := _sprite s; _imageAsset := _imageAsset s;
     _updatedTime := _updatedTime s; _updateInterval := _updateInterval s;
     _openDataContext := _openDataContext s; _content := _content s;
     _designResolutionSize := _designResolutionSize s; enabled := enabled s;
     listeners := l |}.

(** *** Accessors *)

Definition get_designResolutionSize : M Size :=
  let* s := get in ret (_designResolutionSize s).

Definition set_designResolutionSize (value : Size) : M unit :=
  let* s := get in
  if negb EDITOR || Size_equals value (_designResolutionSize s) then ret tt
  else modify (set_size (Size_set (_designResolutionSize s) value)).

Definition get_fps : M float := let* s := get in ret (_fps s).

Definition set_fps (value : float) : M unit :=
  let* s := get in
  if PrimFloat.eqb (_fps s) value then ret tt
  else modify (set_fps_fields value (1000 / value)%float).

(** *** Construction; [now] is the reading of [performance.now()]. *)
Definition constructor (now : float) : State :=
  {| _fps := 60%float;
     _sprite := None;
     _imageAsset := ImageAsset_new;
     _updatedTime := now;
     _updateInterval := 0%float;
     _openDataContext := None;
     _content := {| node_sprite := None; node_parent := false |};
     _designResolutionSize := {| width := 640%float; height := 960%float |};
     enabled := true;
     listeners := [] |}.

(** *** Life-cycle callbacks and helpers *)

Definition _initSharedCanvas : M unit :=
  let* s := get in
  match _openDataContext s with
  | Some ctx =>
      let sharedCanvas := canvas ctx in
      let sharedCanvas := {| canvas_width := width (_designResolutionSize s);
                             canvas_height := canvas_height sharedCanvas |} in
      let sharedCanvas := {| canvas_width := canvas_width sharedCanvas;
                             canvas_height := height (_designResolutionSize s) |} in
      modify (set_openDataContext (Some {| canvas := sharedCanvas |}))
  | None => ret tt
  end.

Definition _initContentNode : M unit :=
  let* s := get in
  match _openDataContext s with
  | Some ctx =>
      let sharedCanvas := canvas ctx in
      call (ImageReset sharedCanvas) >>
      modify (set_imageAsset (image_reset sharedCanvas (_imageAsset s))) >>
      call (TextureCreate (canvas_width sharedCanvas) (canvas_height sharedCanvas)) >>
      modify (fun s => set_imageAsset
                (texture_create (canvas_width sharedCanvas) (canvas_height sharedCanvas)
                                (_imageAsset s)) s) >>
      (* this._sprite = this._content.getComponent(Sprite), or a new one *)
      let* sprite :=
        match node_sprite (_content s) with
        | Some sp => ret sp
        | None => call AddSprite >> ret {| spriteFrame := None |}
        end in
      let* sprite :=
        match spriteFrame sprite with
        | Some _ => call SetSpriteFrameTexture >> ret sprite
        | None => call NewSpriteFrame >> ret {| spriteFrame := Some tt |}
        end in
      call SetContentParent >>
      modify (set_content (Some ContentSprite)
                          {| node_sprite := Some sprite; node_parent := true |})
  | None => ret tt
  end.

Definition _updateSubContextView (env : Env) : M unit :=
  let* s := get in
  match _openDataContext s, adapter env with
  | Some ctx, Some {| getSystemInfoSync := Some systemInfo |} =>
      (* update subContextView size; use SHOW_ALL policy *)
      let scaleX := (node_width env / content_width env)%float in
      let scaleY := (node_height env / content_height env)%float in
      let scale := if (scaleY <? scaleX)%float then scaleY else scaleX in
      let contentWidth := (content_width env * scale)%float in
      let contentHeight := (content_height env * scale)%float in
      call (SetContentWidth contentWidth) >>
      call (SetContentHeight contentHeight) >>
      (* update viewport in subContextView *)
      let box := getBoundingBoxToWorld env contentWidth contentHeight in
      let visibleSize := getVisibleSize env in
      let x := (screenWidth systemInfo * (x box / width visibleSize))%float in
      let y := (screenHeight systemInfo * (y box / height visibleSize))%float in
      let width := (screenWidth systemInfo * (rect_width box / width visibleSize))%float in
      let height :=
        (screenHeight systemInfo * (rect_height box / height visibleSize))%float in
      call (PostMessage {| fromEngine := true; msg_type := "engine";
                           msg_event := "viewport";
                           msg_x := x; msg_y := y;
                           msg_width := width; msg_height := height |})
  | _, _ => ret tt
  end.

(** [_imageAsset] is assigned once, by the constructor, so [!img] is
    false and only the open data context is tested. *)
Definition _updateSubContextTexture : M unit :=
  let* s := get in
  let img := _imageAsset s in
  match _openDataContext s with
  | None => ret tt
  | Some ctx =>
      if (image_width img <=? 0)%float || (image_height img <=? 0)%float then ret tt
      else
        let sharedCanvas := canvas ctx in
        call (ImageReset sharedCanvas) >>
        modify (set_imageAsset (image_reset sharedCanvas img)) >>
        let* s := get in
        let img := _imageAsset s in
        (if (image_width img <? canvas_width sharedCanvas)%float
            || (image_height img <? canvas_height sharedCanvas)%float
         then
           call (TextureCreate (canvas_width sharedCanvas) (canvas_height sharedCanvas)) >>
           modify (set_imageAsset
                     (texture_create (canvas_width sharedCanvas)
                                     (canvas_height sharedCanvas) img))
         else ret tt) >>
        call (TextureUploadData sharedCanvas) >>
        modify (fun s => set_imageAsset (texture_uploadData sharedCanvas (_imageAsset s)) s)
  end.

Definition onLoad (env : Env) : M unit :=
  match adapter env with
  | Some {| getOpenDataContext := Some openDataContext |} =>
      modify (fun s => set_fps_fields (_fps s) (1000 / _fps s)%float s) >>
      modify (set_openDataContext openDataContext) >>
      _initSharedCanvas >>
      _initContentNode >>
      _updateSubContextView env
  | _ => modify (set_enabled false)
  end.

(** [node.on] keeps one registration per event type and callback. *)
Definition node_on (type : NodeEventType) : M unit :=
  call (NodeOn type) >>
  modify (fun s =>
    if existsb (NodeEventType_eqb type) (listeners s) then s
    else set_listeners (listeners s ++ [type])%list s).

Definition node_off (type : NodeEventType) : M unit :=
  call (NodeOff type) >>
  modify (fun s =>
    set_listeners (List.filter (fun t => negb (NodeEventType_eqb type t)) (listeners s)) s).

Definition _registerNodeEvent : M unit :=
  node_on TRANSFORM_CHANGED >> node_on SIZE_CHANGED.

Definition _unregisterNodeEvent : M unit :=
  node_off TRANSFORM_CHANGED >> node_off SIZE_CHANGED.

Definition onEnable : M unit := _registerNodeEvent.
Definition onDisable : M unit := _unregisterNodeEvent.

(** [this.node] emitting an event: the registered callback runs. *)
Definition node_emit (env : Env) (type : NodeEventType) : M unit :=
  let* s := get in
  if existsb (NodeEventType_eqb type) (listeners s)
  then _updateSubContextView env else ret tt.

(** [update(dt)]; [now] is what [performance.now()] returns if read. *)
Definition update (dt : option float) (now : float) : M unit :=
  let calledUpdateManually := match dt with None => true | Some _ => false end in
  if calledUpdateManually then _updateSubContextTexture
  else
    let* s := get in
    let deltaTime := (now - _updatedTime s)%float in
    if (_updateInterval s <=? deltaTime)%float then
      modify (fun s => set_updatedTime (_updatedTime s + _updateInterval s)%float s) >>
      _updateSubContextTexture
    else ret tt.

(** *** Runs of the component under the engine *)

Inductive Action : Type :=
| DoOnLoad
| DoOnEnable
| DoOnDisable
| DoNodeEvent (type : NodeEventType)
| DoUpdate (dt : option float) (now : float)
| DoSetFps (value : float)
| DoSetDesignResolutionSize (value : Size).

Definition step (env : Env) (a : Action) : M unit :=
  match a with
  | DoOnLoad => onLoad env
  | DoOnEnable => onEnable
  | DoOnDisable => onDisable
  | DoNodeEvent type => node_emit env type
  | DoUpdate dt now => update dt now
  | DoSetFps value => set_fps value
  | DoSetDesignResolutionSize value => set_designResolutionSize value
  end.

Fixpoint run (env : Env) (actions : list Action) : M unit :=
  match actions with
  | [] => ret tt
  | a :: rest => step env a >> run env rest
  end.


Definition isPostMessage (e : Effect) : bool :=
  match e with PostMessage _ => true | _ => false end.

Definition isUpload (e : Effect) : bool :=
  match e with TextureUploadData _ => true | _ => false end.

Definition posts (log : list Effect) : nat := length (List.filter isPostMessage log).
Definition uploads (log : list Effect) : nat := length (List.filter isUpload log).

(** *** Predicates on states and method bodies *)

(** The fields the interval gate reads and writes. *)
Definition timing (s : State) : float * float * float :=
  (_fps s, _updatedTime s, _updateInterval s).

(** The open data context is there and the image has a positive size:
    the two guards of [_updateSubContextTexture] let the copy through. *)
Definition copyReady (s : State) : Prop :=
  (exists ctx, _openDataContext s = Some ctx)
  /\ (image_width (_imageAsset s) <=? 0)%float
      || (image_height (_imageAsset s) <=? 0)%float = false.

(** [m] changes neither [_fps] nor [_updateInterval]. *)
Definition keepsRate {A} (m : M A) : Prop :=
  forall s, _fps (state_of (m s)) = _fps s
            /\ _updateInterval (state_of (m s)) = _updateInterval s.

(** [m] posts no message. *)
Definition silent {A} (m : M A) : Prop :=
  forall s, posts (effects_of (m s)) = 0.

(** [_updateInterval] is the period of [_fps]. *)
Definition synced (s : State) : Prop :=
  _updateInterval s = (1000 / _fps s)%float.

End Component.
End SubContextView.

(** ** Concrete hosts, to run the definitions *)

Module Sample.

(** A decoder of the 22-character compressed uuids: two characters kept,
    then ten pairs of base64 digits expanded to three hexadecimal digits
    each and laid out as 8-4-4-4-12; other strings are returned as they
    are. *)
Definition base64Keys : string :=
  "ABCDEFGHIJKLMNOPQRSTUVWXYZabcdefghijklmnopqrstuvwxyz0123456789+/".

Fixpoint indexOf (c : ascii) (keys : string) : option N :=
  match keys with
  | EmptyString => None
  | String k r => if Ascii.eqb c k then Some 0%N else N.succ <$> indexOf c r
  end.

Definition base64Value (c : ascii) : N := default 64%N (indexOf c base64Keys).

Definition hexChar (n : N) : ascii :=
  if (n <? 10)%N then ascii_of_N (48 + n) else ascii_of_N (87 + n).

Fixpoint expandPairs (s : string) : string :=
  match s with
  | String a (String b r) =>
      let lhs := base64Value a in
      let rhs := base64Value b in
      String (hexChar (N.shiftr lhs 2))
        (String (hexChar (N.lor (N.shiftl (N.land lhs 3) 2) (N.shiftr rhs 4)))
           (String (hexChar (N.land rhs 15)) (expandPairs r)))
  | _ => EmptyString
  end.

Definition decodeUuid (base64 : string) : string :=
  let uuid := hd EmptyString (Js.split "@" base64) in
  if Nat.eqb (String.length uuid) 22 then
    let digits := String.substring 0 2 uuid +:+ expandPairs (String.substring 2 20 uuid) in
    String.substring 0 8 digits +:+ "-" +:+ String.substring 8 4 digits +:+ "-"
      +:+ String.substring 12 4 digits +:+ "-" +:+ String.substring 16 4 digits +:+ "-"
      +:+ String.substring 20 12 digits
      +:+ String.substring 22 (String.length base64 - 22) base64
  else base64.

(** Three registered classes: [Asset], a subclass of it, and a class
    outside its hierarchy. *)
Inductive Ctor : Type := AssetClass | Texture2D | RawFile.

Definition isChildClassOf (sub super : Ctor) : bool :=
  match sub, super with
  | AssetClass, AssetClass | Texture2D, Texture2D | Texture2D, AssetClass
  | RawFile, RawFile => true
  | _, _ => false
  end.

Definition classOf (id : string) : option Ctor :=
  if String.eqb id "cc.Asset" then Some AssetClass
  else if String.eqb id "cc.Texture2D" then Some Texture2D
  else if String.eqb id "cc.RawFile" then Some RawFile
  else None.

(** [path.replace(/[\/\\]$/, '')]. *)
Fixpoint stripSep (path : string) : string :=
  match path with
  | EmptyString => EmptyString
  | String c EmptyString =>
      if Ascii.eqb c "/" || Ascii.eqb c (ascii_of_nat 92) then EmptyString else path
  | String c r => String c (stripSep r)
  end.

(** An asset table as the list of the entries added since its reset. *)
Definition Table : Type := list (string * string * Ctor * bool).

#[local] Instance host : AssetLibrary.Host := {|
  AssetLibrary.Ctor := Ctor;
  AssetLibrary.Callback := nat;
  AssetLibrary.AssetTable := Table;
  AssetLibrary.SubPackages := unit;
  AssetLibrary.PackedAssets := unit;
  AssetLibrary.decodeUuid := decodeUuid;
  AssetLibrary._getClassById := classOf;
  AssetLibrary.getClassByName := classOf;
  AssetLibrary.isChildClassOf := isChildClassOf;
  AssetLibrary.Asset := AssetClass;
  AssetLibrary.stripSep := stripSep;
  AssetLibrary.AssetTable_new := [];
  AssetLibrary.AssetTable_reset := fun _ => [];
  AssetLibrary.AssetTable_add := fun url uuid type isMain t => (t ++ [(url, uuid, type, isMain)])%list
|}.

Definition runtime : Constants := {| EDITOR := false; TEST := false; BUILD := true |}.
Definition preview : Constants := {| EDITOR := false; TEST := false; BUILD := false |}.
Definition editor : Constants := {| EDITOR := true; TEST := false; BUILD := false |}.

(** The library after [init] with bases ["lib/"] and ["raw/"], before
    any raw asset is registered. *)
Definition library : AssetLibrary.State := {|
  AssetLibrary._libraryBase := "lib/";
  AssetLibrary._rawAssetsBase := "raw/";
  AssetLibrary._uuidToRawAsset := ∅;
  AssetLibrary._uuidToAsset := ∅;
  AssetLibrary._assetTables := ∅
|}.

(** Options listing three raw assets under one mount point; the type id
    of the second is not registered. *)
Definition options : AssetLibrary.Options := {|
  AssetLibrary.libraryPath := "res/import/";
  AssetLibrary.rawAssetsBase := "raw/";
  AssetLibrary.md5AssetsMap := None;
  AssetLibrary.subPackages := None;
  AssetLibrary.rawAssets :=
    Some [("assets",
           [("u1", {| AssetLibrary.raw_url := "a.png";
                      AssetLibrary.raw_typeId := "cc.Texture2D";
                      AssetLibrary.raw_2 := None |});
            ("u2", {| AssetLibrary.raw_url := "b.bin";
                      AssetLibrary.raw_typeId := "cc.Missing";
                      AssetLibrary.raw_2 := None |});
            ("u3", {| AssetLibrary.raw_url := "c.raw";
                      AssetLibrary.raw_typeId := "cc.RawFile";
                      AssetLibrary.raw_2 := Some 1%Z |})])];
  AssetLibrary.packedAssets := None;
  AssetLibrary.mountPaths_assets := None
|}.


(** The library after [init options]. *)
Definition initialised : AssetLibrary.State :=
  fst (fst (AssetLibrary.init (C := runtime) options library)).

End Sample.


Module SampleView.

Import SubContextView.

(** An image asset by the size of its native data; a texture that keeps
    no state of its own. *)
#[local] Instance host : Host := {|
  Size_equals := fun a b =>
    PrimFloat.eqb (width a) (width b) && PrimFloat.eqb (height a) (height b);
  Size_set := fun _ b => b;
  ImageAsset := Canvas;
  ImageAsset_new := {| canvas_width := 0; canvas_height := 0 |};
  image_width := canvas_width;
  image_height := canvas_height;
  image_reset := fun data _ => data;
  texture_create := fun _ _ img => img;
  texture_uploadData := fun _ img => img
|}.

Definition wechat : Adapter := {|
  getOpenDataContext :=
    Some (Some {| canvas := {| canvas_width := 300; canvas_height := 150 |} |});
  getSystemInfoSync := Some {| screenWidth := 375; screenHeight := 667 |}
|}.

Definition env : Env := {|
  adapter := Some wechat;
  node_width := 320;
  node_height := 480;
  content_width := 640;
  content_height := 960;
  getBoundingBoxToWorld := fun w h =>
    {| x := 160; y := 240; rect_width := w; rect_height := h |};
  getVisibleSize := {| width := 640; height := 960 |}
|}.

(** Two design resolutions: the default one and a larger one. *)
Definition standard : Size := {| width := 640; height := 960 |}.
Definition hd : Size := {| width := 720; height := 1280 |}.

(** The component as constructed at time 0, and after [onLoad]. *)
Definition fresh : State := constructor 0.
Definition loaded : State := state_of (onLoad env fresh).

End SampleView.

(** * Further parts of the two modules *)

(** ** More string built-ins *)

Module JsMore.

(** Every character of [s] passes [p]. *)
Fixpoint allChars (p : ascii -> bool) (s : string) : bool :=
  match s with
  | EmptyString => true
  | String a r => p a && allChars p r
  end.

(** A character [encodeURIComponent] keeps. *)
Definition isUnreserved (a : ascii) : bool := Js.unreserved (N_of_ascii a).

(** What a processed uuid is made of: kept characters, the escape sign and
    the segment separator. *)
Definition urlSafe (a : ascii) : bool :=
  isUnreserved a || Ascii.eqb a "%" || Ascii.eqb a "@".

(** What a uuid that needs no escaping is made of. *)
Definition plain (a : ascii) : bool := isUnreserved a || Ascii.eqb a "@".

(** A plain character other than the dot. *)
Definition plainNoDot (a : ascii) : bool := plain a && negb (Ascii.eqb a ".").

(** [s.startsWith(p)]. *)
Fixpoint startsWith (s p : string) : bool :=
  match p, s with
  | EmptyString, _ => true
  | String b p', String a s' => Ascii.eqb a b && startsWith s' p'
  | String _ _, EmptyString => false
  end.

(** [s.indexOf(c)] for a one-character [c]; [None] stands for [-1]. *)
Fixpoint indexOf (c : ascii) (s : string) : option nat :=
  match s with
  | EmptyString => None
  | String a r => if Ascii.eqb a c then Some 0 else S <$> indexOf c r
  end.

(** Whether [v] is an object, on which a property can be assigned. In
    module code, which is strict, assigning a property of any other value
    throws a [TypeError]. *)
Definition isObject (v : Js.Value) : bool :=
  match v with
  | Js.ErrorObj _ _ | Js.AssetObj _ _ | Js.Obj _ => true
  | _ => false
  end.

End JsMore.

(** ** The asset library: [isScene], [loadJson], [parseUuidInEditor] *)

Module AssetLibraryMore.
Import AssetLibrary.

(** What these functions import besides [AssetLibrary.Host]. *)
Class EditorHost := {
  instanceOfScene : Js.Value -> bool;    (* [asset instanceof legacyCC.Scene] *)
  _getReferenceKey : string -> string;   (* loader._getReferenceKey *)
  assetLoader_id : string;               (* loader.assetLoader.id *)
  downloader_id : string;                (* loader.downloader.id *)
  dirname : string -> string;            (* path.dirname *)
  basename : string -> string            (* path.basename *)
}.

Section More.
Context `{C : Constants} `{H : Host} `{E : EditorHost}.

(** [isScene(asset)], as a condition. *)
Definition isScene (asset : Js.Value) : bool :=
  Js.truthy asset && (Js.isSceneAsset asset || instanceOfScene asset).

(** The item [loadJson] hands to [loader.load]. *)
Record JsonItem := {
  json_uuid : string;
  json_type : string;
  json_content : Js.Value;
  json_skips : list string
}.

(** The calls of [loadJson] that leave the module. *)
#[local] Unset Elimination Schemes.
Inductive JsonEffect : Type :=
| JsonLoad (item : JsonItem)
    (onLoaded : Js.Value -> Js.Value -> list JsonEffect * Outcome)
| RemoveItem (id : string)
| ClearUuid (asset : Js.Value)            (* [asset._uuid = ''] *)
| JsonCallback (callback : Callback) (error asset : Js.Value).
#[local] Set Elimination Schemes.

(** The arrow function [loadJson] passes to [loader.load]. The assignment
    [asset._uuid = ''] is reached whatever [error] is. *)
Definition loadJson_onLoaded (randomUuid : string) (callback : option Callback)
    (error asset : Js.Value) : list JsonEffect * Outcome :=
  let error' :=
    if Js.truthy error then
      Js.ErrorObj ("[AssetLibrary] loading JSON or dependencies failed: "
                   +:+ Js.messageText error) None
    else error in
  let removed :=
    if Js.truthy error then []
    else if EDITOR || isScene asset then [RemoveItem (_getReferenceKey randomUuid)]
    else [] in
  if JsMore.isObject asset then
    ((removed ++ [ClearUuid asset]
      ++ match callback with
         | Some cb => [JsonCallback cb error' asset]
         | None => []
         end)%list, Returned)
  else (removed, Threw "TypeError").

(** [loadJson(json, callback)]; [randomUuid] is the string made of the
    clock and [Math.random()]. *)
Definition loadJson (randomUuid : string) (json : Js.Value) (callback : option Callback)
    : list JsonEffect :=
  [JsonLoad {| json_uuid := randomUuid; json_type := "uuid"; json_content := json;
               json_skips := [assetLoader_id; downloader_id] |}
            (loadJson_onLoaded randomUuid callback)].

(** [parseUuidInEditor(url)]; [None] is [undefined], returned outside the
    editor. *)
Definition parseUuidInEditor (st : State) (url : string) : option string :=
  if EDITOR then
    let uuid := EmptyString in
    let isImported := JsMore.startsWith url (_libraryBase st) in
    Some (if isImported then
            let dir := dirname url in
            let dirBasename := basename dir in
            let isAssetUrl := Nat.eqb (String.length dirBasename) 2 in
            if isAssetUrl then
              let uuid := basename url in
              match JsMore.indexOf "." uuid with
              | Some index => Js.slice uuid 0 index
              | None => uuid
              end
            else dirBasename (* raw file url *)
          else uuid)
  else None.

(** *** Observations on effects and on [init] *)

Definition isQueryCallback (e : Effect) : bool :=
  match e with QueryCallback _ _ _ _ _ => true | _ => false end.

(** The effects once the editor has answered each query with [answer]. *)
Definition answered (answer : string -> Js.Value * EditorInfo) (e : Effect) : list Effect :=
  match e with
  | EditorQueryAssetInfo uuid onInfo => onInfo (fst (answer uuid)) (snd (answer uuid))
  | _ => [e]
  end.

(** A callback call of [queryAssetInfo] passes either an [Error] alone or
    [null] with a url and the raw mark. *)
Definition errorOrUrl (e : Effect) : bool :=
  match e with
  | QueryCallback _ error url raw _ =>
      match error, url, raw with
      | Js.Null, Some _, Some _ => true
      | Js.ErrorObj _ _, None, None => true
      | _, _, _ => false
      end
  | _ => true
  end.

Definition isJsonCallback (e : JsonEffect) : bool :=
  match e with JsonCallback _ _ _ => true | _ => false end.

Definition isRemoveItem (e : JsonEffect) : bool :=
  match e with RemoveItem _ => true | _ => false end.

(** The table of [mountPoint] after the entries: each resolved entry
    listed under it is added, in order, to the table it had (a new one
    when it had none). *)
Fixpoint tabled (entries : list (string * string * RawInfo)) (mountPoint : string)
    (before : option AssetTable) : option AssetTable :=
  match entries with
  | [] => before
  | (m, uuid, info) :: rest =>
      tabled rest mountPoint
        (if String.eqb m mountPoint then
           match _getClassById (raw_typeId info) with
           | Some type =>
               Some (AssetTable_add (raw_url info) uuid type
                       (negb (bool_decide (raw_2 info = Some 1%Z)))
                       (default AssetTable_new before))
           | None => before
           end
         else before)
  end.

(** The entries [options] lists, none when it has no [rawAssets]. *)
Definition listed (options : Options) : list (string * string * RawInfo) :=
  rawAssetEntries (default [] (rawAssets options)).

(** The bases [init] sets. *)
Definition rebased (options : Options) (st : State) : State :=
  set_bases (stripSep (Js.backslashesToSlashes (libraryPath options)) +:+ "/")
            (rawAssetsBase options) st.

End More.
End AssetLibraryMore.

(** ** The sub-context view: observations on runs *)

Module SubContextViewMore.
Import SubContextView.

Section More.
Context `{C : Constants} `{H : Host}.

(** A registration call on [this.node]. *)
Definition isNodeCall (e : Effect) : bool :=
  match e with NodeOn _ | NodeOff _ => true | _ => false end.

(** Not a message, or the viewport message of the engine. *)
Definition isViewportMessage (e : Effect) : bool :=
  match e with
  | PostMessage m =>
      fromEngine m && String.eqb (msg_type m) "engine"
      && String.eqb (msg_event m) "viewport"
  | _ => true
  end.

Definition isUpdate (a : Action) : bool :=
  match a with DoUpdate _ _ => true | _ => false end.

(** The number of [update] calls among the actions. *)
Definition updates (actions : list Action) : nat := length (List.filter isUpdate actions).

(** The platform hands out an open data context. *)
Definition offersContext (env : Env) : bool :=
  match adapter env with
  | Some {| getOpenDataContext := Some (Some _) |} => true
  | _ => false
  end.

(** The fields other than [_updatedTime] and [_imageAsset]. *)
Definition settings (s : State) :=
  (_fps s, _updateInterval s, _openDataContext s, _content s, _sprite s,
   _designResolutionSize s, enabled s, listeners s).

(** The effects of [_updateSubContextTexture] are one of: nothing; reset
    and upload; reset, create at the canvas size, upload. *)
Definition copyShape (shared : Canvas) (log : list Effect) : Prop :=
  log = []
  \/ log = [ImageReset shared; TextureUploadData shared]
  \/ log = [ImageReset shared;
            TextureCreate (canvas_width shared) (canvas_height shared);
            TextureUploadData shared].

(** A method body keeps [P] on the fields and issues only calls that
    pass [Q]. *)
Definition obeys (P : State -> Prop) (Q : Effect -> bool) {A} (m : M A) : Prop :=
  forall s, P s ->
    P (state_of (m s)) /\ forallb Q (effects_of (m s)) = true.

Definition anyState (s : State) : Prop := True.
Definition anyCall (e : Effect) : bool := true.
Definition noUpload (e : Effect) : bool := negb (isUpload e).

End More.
End SubContextViewMore.

(** ** A concrete editor host *)

Module SampleMore.

(** The part of a path before its last ["/"], and the part after it. *)
Fixpoint lastSlash (path : string) : option (string * string) :=
  match path with
  | EmptyString => None
  | String c r =>
      match lastSlash r with
      | Some (d, f) => Some (String c d, f)
      | None => if Ascii.eqb c "/" then Some (EmptyString, r) else None
      end
  end.

Definition dirname (path : string) : string :=
  match lastSlash path with Some (d, _) => d | None => EmptyString end.

Definition basename (path : string) : string :=
  match lastSlash path with Some (_, f) => f | None => path end.

#[local] Instance editorHost : AssetLibraryMore.EditorHost := {|
  AssetLibraryMore.instanceOfScene := fun v =>
    match v with Js.Obj 1 => true | _ => false end;
  AssetLibraryMore._getReferenceKey := fun uuid => uuid;
  AssetLibraryMore.assetLoader_id := "AssetLoader";
  AssetLibraryMore.downloader_id := "Downloader";
  AssetLibraryMore.dirname := dirname;
  AssetLibraryMore.basename := basename
|}.

(** Options whose md5 map lists [import] but no ['raw-assets']. *)
Definition incomplete : @AssetLibrary.Options Sample.host := {|
  AssetLibrary.libraryPath := "res/import/";
  AssetLibrary.rawAssetsBase := "raw/";
  AssetLibrary.md5AssetsMap :=
    Some {| AssetLibrary.md5_import := Some ["u1"; "0a1b2"];
            AssetLibrary.md5_raw_assets := None |};
  AssetLibrary.subPackages := None;
  AssetLibrary.rawAssets := AssetLibrary.rawAssets Sample.options;
  AssetLibrary.packedAssets := None;
  AssetLibrary.mountPaths_assets := None
|}.

(** An environment whose adapter has no [getOpenDataContext]. *)
Definition bare : SubContextView.Env := {|
  SubContextView.adapter :=
    Some {| SubContextView.getOpenDataContext := None;
            SubContextView.getSystemInfoSync :=
              Some {| SubContextView.screenWidth := 375;
                      SubContextView.screenHeight := 667 |} |};
  SubContextView.node_width := 320;
  SubContextView.node_height := 480;
  SubContextView.content_width := 640;
  SubContextView.content_height := 960;
  SubContextView.getBoundingBoxToWorld := fun w h =>
    {| SubContextView.x := 0; SubContextView.y := 0;
       SubContextView.rect_width := w; SubContextView.rect_height := h |};
  SubContextView.getVisibleSize := {| SubContextView.width := 640;
                                      SubContextView.height := 960 |}
|}.

End SampleMore.

(** * Properties *)

(** ** String built-ins *)

Module JsFacts.

Lemma split_nonempty sep s : Js.split sep s <> [].
Proof.
  destruct s as [|c r]; simpl; [discriminate|].
  destruct (Ascii.eqb c sep); [discriminate|].
  destruct (Js.split sep r); discriminate.
Qed.

Lemma append_nil_l (b : string) : "" +:+ b = b.
Proof. reflexivity. Qed.

Lemma append_cons c (a b : string) : String c a +:+ b = String c (a +:+ b).
Proof. reflexivity. Qed.

Lemma append_empty_r (s : string) : s +:+ "" = s.
Proof.
  induction s as [|c r IH]; [reflexivity|]. now rewrite append_cons, IH.
Qed.

Lemma append_assoc (a b c : string) : (a +:+ b) +:+ c = a +:+ (b +:+ c).
Proof.
  induction a as [|x a IH]; [reflexivity|]. now rewrite !append_cons, IH.
Qed.

Lemma split_app_segment sep a b :
  Js.oneSegment sep a ->
  Js.split sep (a +:+ b) =
    match Js.split sep b with
    | h :: t => (a +:+ h) :: t
    | [] => [a]
    end.
Proof.
  unfold Js.oneSegment. induction a as [|c a IH]; intros Ha.
  - rewrite append_nil_l.
    pose proof (split_nonempty sep b) as Hb. destruct (Js.split sep b); [congruence | reflexivity].
  - rewrite append_cons. simpl in Ha |- *.
    destruct (Ascii.eqb c sep); [discriminate|].
    destruct (Js.split sep a) as [|h t] eqn:Hs.
    + exfalso. eapply split_nonempty; eassumption.
    + assert (h = a /\ t = []) as [-> ->] by (split; congruence).
      rewrite IH by reflexivity.
      destruct (Js.split sep b); reflexivity.
Qed.

Lemma oneSegment_app sep a b :
  Js.oneSegment sep a -> Js.oneSegment sep b -> Js.oneSegment sep (a +:+ b).
Proof.
  intros Ha Hb. unfold Js.oneSegment. rewrite split_app_segment by assumption.
  now rewrite Hb.
Qed.

Lemma encodeUnit_oneSegment a : Js.oneSegment "@" (Js.encodeUnit a).
Proof.
  destruct a as [[] [] [] [] [] [] [] []]; vm_compute; reflexivity.
Qed.

(** [encodeURIComponent] escapes every ["@"]. *)
Lemma encodeURIComponent_oneSegment s : Js.oneSegment "@" (Js.encodeURIComponent s).
Proof.
  induction s as [|a r IH]; [reflexivity|].
  apply oneSegment_app; [apply encodeUnit_oneSegment | exact IH].
Qed.

(** Splitting undoes joining when no joined piece holds the separator. *)
Lemma split_join (l : list string) :
  l <> [] -> Forall (Js.oneSegment "@") l -> Js.split "@" (Js.join "@" l) = l.
Proof.
  induction l as [|x r IH]; [congruence|]. intros _ Hall.
  inversion Hall as [|? ? Hx Hr]; subst.
  destruct r as [|y r]; [exact Hx|].
  change (Js.join "@" (x :: y :: r)) with (x +:+ "@" +:+ Js.join "@" (y :: r)).
  rewrite split_app_segment by assumption.
  change (Js.split "@" ("@" +:+ Js.join "@" (y :: r)))
    with (EmptyString :: Js.split "@" (Js.join "@" (y :: r))).
  cbv beta iota.
  rewrite append_empty_r, IH; [reflexivity | discriminate | assumption].
Qed.

End JsFacts.

(** ** The asset library *)

Module AssetLibraryFacts.
Import AssetLibrary.

Section Facts.
Context `{C : Constants} `{H : Host}.

Lemma encodeSegments_split (uuid : string) :
  Js.split "@" (encodeSegments uuid) = map Js.encodeURIComponent (Js.split "@" uuid).
Proof.
  unfold encodeSegments. apply JsFacts.split_join.
  - pose proof (JsFacts.split_nonempty "@" uuid) as Hne.
    destruct (Js.split "@" uuid); [congruence | discriminate].
  - induction (Js.split "@" uuid) as [|x r IH]; constructor;
      [apply JsFacts.encodeURIComponent_oneSegment | exact IH].
Qed.

(** C3, amended. [getLibUrlNoExt] returns the concatenation
    [base + processed.slice(0, 2) + '/' + processed], where [processed]
    is the uuid, in a build first expanded by [decodeUuid], with each of
    its ['@']-separated segments percent-encoded and rejoined with
    ['@'] (splitting [processed] at ['@'] gives back exactly the encoded
    segments); [base] is [_rawAssetsBase + 'assets/'] in a build with
    [inRawAssetsDir], and [_libraryBase] otherwise; nothing follows
    [processed], so no extension is appended. Where the uuid is not
    changed by the decoding step (outside a build, or a uuid that
    [decodeUuid] returns as it is) this is the url of the documentation. *)
Theorem getLibUrlNoExt_composition (st : State) (uuid : string) (inRawAssetsDir : bool) :
  let source := if BUILD then decodeUuid uuid else uuid in
  let processed := Js.join "@" (map Js.encodeURIComponent (Js.split "@" source)) in
  let base := if BUILD && inRawAssetsDir
              then _rawAssetsBase st +:+ "assets/" else _libraryBase st in
  getLibUrlNoExt st uuid inRawAssetsDir
    = base +:+ Js.slice processed 0 2 +:+ "/" +:+ processed
  /\ Js.split "@" processed = map Js.encodeURIComponent (Js.split "@" source)
  /\ (exists front, getLibUrlNoExt st uuid inRawAssetsDir = front +:+ processed)
  /\ (BUILD = false \/ decodeUuid uuid = uuid ->
      getLibUrlNoExt st uuid inRawAssetsDir = getLibUrlNoExt_spec st uuid inRawAssetsDir).
Proof.
  cbv zeta. repeat split.
  - apply encodeSegments_split.
  - unfold getLibUrlNoExt, encodeSegments.
    set (processed := Js.join "@" _). set (base := if BUILD && _ then _ else _).
    exists ((base +:+ Js.slice processed 0 2) +:+ "/").
    rewrite !JsFacts.append_assoc. reflexivity.
  - intros Hsame. unfold getLibUrlNoExt, getLibUrlNoExt_spec, encodeSegments.
    destruct Hsame as [-> | Hfix]; [reflexivity|].
    destruct BUILD; [now rewrite Hfix | reflexivity].
Qed.

(** C4. [loadAsset] answers through its callback only. A [uuid] that is
    not a string schedules the callback for the next tick with an
    [Error] and [null], and that is the whole of the call: the loader is
    not reached. For a string the loader is called with the item, and
    its completion handler passes the callback an [Error] whose message
    starts with ['[AssetLibrary] loading JSON or dependencies failed: ']
    when the loader gave an error or no asset, and otherwise the
    loader's falsy error and its asset as they are (in the editor a
    scene without scene data is also logged). *)
Theorem loadAsset_callback_only (callback : Callback) (options : option Js.Value) :
  (forall uuid, Js.isString uuid = None ->
     loadAsset uuid (Some callback) options =
       [CallInNextTick (Some callback)
          (Js.ErrorObj "[AssetLibrary] uuid must be string" None) Js.Null])
  /\ (forall u, exists item,
        loadAsset (Js.Str u) (Some callback) options =
          [LoaderLoad item (loadAsset_onLoaded u (Some callback))]
        /\ item_uuid item = u /\ item_type item = "uuid")
  /\ (forall u error asset,
        Js.truthy error || negb (Js.truthy asset) = true ->
        exists reason,
          loadAsset_onLoaded u (Some callback) error asset =
            [LoadCallback callback
               (Js.ErrorObj ("[AssetLibrary] loading JSON or dependencies failed: "
                             +:+ reason) None)
               asset])
  /\ (forall u error asset,
        Js.truthy error = false -> Js.truthy asset = true ->
        exists log,
          loadAsset_onLoaded u (Some callback) error asset =
            (log ++ [LoadCallback callback error asset])%list
          /\ (log = [] \/ EDITOR = true /\ exists args, log = [DebugError args])).
Proof.
  repeat split.
  - intros uuid Hns. unfold loadAsset. now rewrite Hns.
  - intros u. eexists. unfold loadAsset. simpl. repeat split.
  - intros u error asset Hfail. unfold loadAsset_onLoaded. rewrite Hfail.
    eexists. reflexivity.
  - intros u error asset He Ha. unfold loadAsset_onLoaded. rewrite He, Ha. simpl.
    destruct (Js.isSceneAsset asset); [|exists []; split; [reflexivity | now left]].
    destruct (EDITOR && Js.lacksScene asset) eqn:Hed.
    + eexists [_]. split; [reflexivity|]. right.
      apply andb_true_iff in Hed as [-> _]. split; [reflexivity | eexists; reflexivity].
    + exists []. split; [reflexivity | now left].
Qed.

(** C5. Outside the editor [queryAssetInfo] calls the callback once,
    with a [null] error: for a uuid registered as a raw asset whose type
    is not a subclass of [Asset], with [_rawAssetsBase + url] and
    [raw = true]; for every other uuid with
    [getLibUrlNoExt(uuid) + '.json'] and [raw = false]. *)
Theorem queryAssetInfo_runtime (st : State) (uuid : string) (callback : Callback) :
  EDITOR = false ->
  (forall info,
     _uuidToRawAsset st !! uuid = Some info ->
     isChildClassOf (entry_type info) Asset = false ->
     queryAssetInfo st uuid callback =
       [QueryCallback callback Js.Null
          (Some (_rawAssetsBase st +:+ entry_url info)) (Some true) None])
  /\ ((_uuidToRawAsset st !! uuid = None
       \/ exists info, _uuidToRawAsset st !! uuid = Some info
                       /\ isChildClassOf (entry_type info) Asset = true) ->
      queryAssetInfo st uuid callback =
        [QueryCallback callback Js.Null
           (Some (getLibUrlNoExt st uuid false +:+ ".json")) (Some false) None]).
Proof.
  intros Hrun. unfold queryAssetInfo, _getAssetInfoInRuntime. rewrite Hrun. simpl.
  split.
  - intros info -> ->. reflexivity.
  - intros [-> | (info & -> & ->)]; reflexivity.
Qed.


(** *** [init]: the raw-asset registry *)

Lemma fold_left_fmap_list {A B X} (f : A -> B -> A) (g : X -> B) (l : list X) (a : A) :
  fold_left f (map g l) a = fold_left (fun a x => f a (g x)) l a.
Proof. revert a. induction l as [|x l IH]; intros a; simpl; [reflexivity | apply IH]. Qed.

Lemma addRawAssets_entries rawAssets acc :
  addRawAssets rawAssets acc = fold_left addRawEntry (rawAssetEntries rawAssets) acc.
Proof.
  unfold addRawAssets, rawAssetEntries. revert acc.
  induction rawAssets as [|[mountPoint assets] rest IH]; intros acc; [reflexivity|].
  simpl. rewrite fold_left_app, fold_left_fmap_list. rewrite <- IH. f_equal.
  clear IH. revert acc. induction assets as [|[uuid info] assets IHa]; intros acc;
    [reflexivity | apply IHa].
Qed.

Lemma addRawAsset_resolved mountPoint st log uuid info type :
  _getClassById (raw_typeId info) = Some type ->
  addRawAsset mountPoint (st, log) (uuid, info) =
    ({| _libraryBase := _libraryBase st;
        _rawAssetsBase := _rawAssetsBase st;
        _uuidToRawAsset :=
          <[uuid := {| entry_url := mountPoint +:+ "/" +:+ raw_url info;
                       entry_type := type |}]> (_uuidToRawAsset st);
        _uuidToAsset := _uuidToAsset st;
        _assetTables :=
          <[mountPoint :=
              AssetTable_add (raw_url info) uuid type
                (negb (bool_decide (raw_2 info = Some 1%Z)))
                (default AssetTable_new (_assetTables st !! mountPoint))]>
            (_assetTables st) |}, log).
Proof.
  intros Hty. unfold addRawAsset. rewrite Hty. unfold set_tables, set_rawAsset. simpl.
  f_equal. f_equal.
  destruct (_assetTables st !! mountPoint) as [t|] eqn:Ht; simpl.
  - apply map_eq. intros k. destruct (decide (mountPoint = k)) as [<-|Hne].
    + now rewrite lookup_alter_eq, lookup_insert_eq, Ht.
    + now rewrite lookup_alter_ne, lookup_insert_ne by assumption.
  - now rewrite alter_insert_eq.
Qed.

Lemma addRawAsset_unresolved mountPoint st log uuid info :
  _getClassById (raw_typeId info) = None ->
  addRawAsset mountPoint (st, log) (uuid, info) =
    (st, (log ++ [DebugError [Js.Str "Cannot get"; Js.Str (raw_typeId info)]])%list).
Proof. intros Hty. unfold addRawAsset. now rewrite Hty. Qed.

Lemma addRawEntry_lookup acc mountPoint u info uuid :
  _uuidToRawAsset (fst (addRawEntry acc (mountPoint, u, info))) !! uuid =
    if String.eqb u uuid then
      match rawAssetEntryOf mountPoint info with
      | Some e => Some e
      | None => _uuidToRawAsset (fst acc) !! uuid
      end
    else _uuidToRawAsset (fst acc) !! uuid.
Proof.
  destruct acc as [st log]. unfold addRawEntry, rawAssetEntryOf. cbn [fst snd].
  destruct (_getClassById (raw_typeId info)) as [type|] eqn:Hty.
  - rewrite (addRawAsset_resolved _ _ _ _ _ _ Hty). simpl.
    destruct (String.eqb_spec u uuid) as [->|Hne].
    + apply lookup_insert_eq.
    + now apply lookup_insert_ne.
  - rewrite (addRawAsset_unresolved _ _ _ _ _ Hty). simpl.
    now destruct (String.eqb u uuid).
Qed.

Lemma fold_addRawEntry_lookup entries acc uuid :
  _uuidToRawAsset (fst (fold_left addRawEntry entries acc)) !! uuid =
    registered entries uuid (_uuidToRawAsset (fst acc) !! uuid).
Proof.
  revert acc. induction entries as [|[[mountPoint u] info] rest IH]; intros acc;
    [reflexivity|].
  simpl. rewrite IH, addRawEntry_lookup. reflexivity.
Qed.

(** C6. In [init], each entry of [options.rawAssets] whose type id
    resolves to a class stores [RawAssetEntry(mountPoint + '/' + url,
    class)] under its uuid and is added to the asset table of its mount
    point (a new table when the mount point has none); an entry whose
    type id does not resolve is reported and changes nothing; the two
    loops visit every entry, in order, whatever was skipped; and when
    [init] runs to its end (it was not refused as a second
    initialisation in the editor and did not fail on the md5 map), the
    registry holds, under every uuid, the last resolved entry listed
    for it. *)
Theorem init_registers_raw_assets :
  (forall mountPoint st log uuid info type,
     _getClassById (raw_typeId info) = Some type ->
     let r := addRawAsset mountPoint (st, log) (uuid, info) in
     _uuidToRawAsset (fst r) =
       <[uuid := {| entry_url := mountPoint +:+ "/" +:+ raw_url info;
                    entry_type := type |}]> (_uuidToRawAsset st)
     /\ _assetTables (fst r) =
          <[mountPoint :=
              AssetTable_add (raw_url info) uuid type
                (negb (bool_decide (raw_2 info = Some 1%Z)))
                (default AssetTable_new (_assetTables st !! mountPoint))]>
            (_assetTables st)
     /\ snd r = log)
  /\ (forall mountPoint st log uuid info,
        _getClassById (raw_typeId info) = None ->
        addRawAsset mountPoint (st, log) (uuid, info) =
          (st, (log ++ [DebugError [Js.Str "Cannot get";
                                    Js.Str (raw_typeId info)]])%list))
  /\ (forall rawAssets acc,
        addRawAssets rawAssets acc =
          fold_left addRawEntry (rawAssetEntries rawAssets) acc)
  /\ (forall options st listed,
        EDITOR && Js.truthy (Js.Str (_libraryBase st)) = false ->
        snd (init options st) = Returned ->
        rawAssets options = Some listed ->
        forall uuid,
          _uuidToRawAsset (fst (fst (init options st))) !! uuid =
            registered (rawAssetEntries listed) uuid (_uuidToRawAsset st !! uuid)).
Proof.
  split; [|split; [|split]].
  - intros mountPoint st log uuid info type Hty. cbv zeta.
    rewrite (addRawAsset_resolved _ _ _ _ _ _ Hty). simpl. repeat split.
  - apply addRawAsset_unresolved.
  - apply addRawAssets_entries.
  - intros options st listed Hguard Hret Hraw uuid. revert Hret.
    unfold init. rewrite Hguard, Hraw.
    destruct (md5AssetsMap options) as [[[importEntries|] [rawEntries|]]|];
      simpl; try discriminate; intros _.
    all: rewrite addRawAssets_entries.
    all: destruct (fold_left addRawEntry _ _) as [st' log'] eqn:Hfold.
    all: simpl.
    all: change st' with (fst (st', log')); rewrite <- Hfold.
    all: now rewrite fold_addRawEntry_lookup.
Qed.

End Facts.

(** *** The statements at concrete inputs *)

#[local] Existing Instance Sample.host.

(** C3, as first stated, fails in a build: for a compressed uuid the url
    is composed from the decoded uuid, not from the uuid passed in. *)
Lemma getLibUrlNoExt_not_spec_in_build :
  getLibUrlNoExt (C := Sample.runtime) Sample.library "fcmR3XADNLgJ1ByKhqcC5Z" false
    = "lib/fc/fc991dd7-0033-4b80-9d41-c8a86a702e59"
  /\ getLibUrlNoExt_spec (C := Sample.runtime) Sample.library
        "fcmR3XADNLgJ1ByKhqcC5Z" false
      = "lib/fc/fcmR3XADNLgJ1ByKhqcC5Z"
  /\ getLibUrlNoExt (C := Sample.runtime) Sample.library "fcmR3XADNLgJ1ByKhqcC5Z" false
      <> getLibUrlNoExt_spec (C := Sample.runtime) Sample.library
           "fcmR3XADNLgJ1ByKhqcC5Z" false.
Proof. vm_compute. repeat split. discriminate. Qed.

Lemma getLibUrlNoExt_composition_witness :
  (@BUILD Sample.preview = false \/ decodeUuid "ab@c d" = "ab@c d")
  /\ getLibUrlNoExt (C := Sample.preview) Sample.library "ab@c d" true
      = getLibUrlNoExt_spec (C := Sample.preview) Sample.library "ab@c d" true
  /\ getLibUrlNoExt (C := Sample.preview) Sample.library "ab@c d" true
      = "lib/ab/ab@c%20d".
Proof.
  pose proof (getLibUrlNoExt_composition (C := Sample.preview) Sample.library
                                         "ab@c d" true) as W.
  cbv zeta in W. destruct W as (_ & _ & _ & W).
  assert (@BUILD Sample.preview = false \/ decodeUuid "ab@c d" = "ab@c d") as Hsame
    by (left; reflexivity).
  split; [exact Hsame|]. split; [exact (W Hsame) | reflexivity].
Defined.

Lemma loadAsset_callback_only_witness :
  Js.isString (Js.Number 5) = None
  /\ loadAsset (C := Sample.runtime) (Js.Number 5) (Some 7) None =
       [CallInNextTick (Some 7)
          (Js.ErrorObj "[AssetLibrary] uuid must be string" None) Js.Null]
  /\ Js.truthy (Js.ErrorObj "404" None) || negb (Js.truthy Js.Null) = true
  /\ (exists reason,
        loadAsset_onLoaded (C := Sample.runtime) "u1" (Some 7)
                           (Js.ErrorObj "404" None) Js.Null =
          [LoadCallback 7
             (Js.ErrorObj ("[AssetLibrary] loading JSON or dependencies failed: "
                           +:+ reason) None)
             Js.Null])
  /\ Js.truthy Js.Undefined = false /\ Js.truthy (Js.AssetObj false false) = true
  /\ (exists log,
        loadAsset_onLoaded (C := Sample.runtime) "u1" (Some 7) Js.Undefined
                           (Js.AssetObj false false) =
          (log ++ [LoadCallback 7 Js.Undefined (Js.AssetObj false false)])%list
        /\ (log = [] \/ @EDITOR Sample.runtime = true
                         /\ exists args, log = [DebugError args])).
Proof.
  destruct (loadAsset_callback_only (C := Sample.runtime) (7 : @Callback Sample.host) None)
    as (Hbad & _ & Hfail & Hok).
  assert (Js.isString (Js.Number 5) = None) as H1 by reflexivity.
  assert (Js.truthy (Js.ErrorObj "404" None) || negb (Js.truthy Js.Null) = true) as H2
    by reflexivity.
  assert (Js.truthy Js.Undefined = false) as H3 by reflexivity.
  assert (Js.truthy (Js.AssetObj false false) = true) as H4 by reflexivity.
  split; [exact H1|]. split; [exact (Hbad _ H1)|]. split; [exact H2|].
  split; [exact (Hfail "u1" _ _ H2)|]. split; [exact H3|]. split; [exact H4|].
  exact (Hok "u1" _ _ H3 H4).
Defined.

Lemma queryAssetInfo_runtime_witness :
  @EDITOR Sample.runtime = false
  /\ _uuidToRawAsset Sample.initialised !! "u3"
      = Some {| entry_url := "assets/c.raw"; entry_type := Sample.RawFile |}
  /\ queryAssetInfo (C := Sample.runtime) Sample.initialised "u3" 7 =
       [QueryCallback 7 Js.Null (Some "raw/assets/c.raw") (Some true) None]
  /\ queryAssetInfo (C := Sample.runtime) Sample.initialised "u2" 7 =
       [QueryCallback 7 Js.Null (Some "res/import/u2/u2.json") (Some false) None].
Proof.
  destruct (queryAssetInfo_runtime (C := Sample.runtime) Sample.initialised "u3"
                                   (7 : @Callback Sample.host) eq_refl) as [Hraw _].
  destruct (queryAssetInfo_runtime (C := Sample.runtime) Sample.initialised "u2"
                                   (7 : @Callback Sample.host) eq_refl) as [_ Hlib].
  assert (_uuidToRawAsset Sample.initialised !! "u3"
          = Some {| entry_url := "assets/c.raw"; entry_type := Sample.RawFile |}) as H3
    by (vm_compute; reflexivity).
  assert (_uuidToRawAsset Sample.initialised !! "u2" = None) as H2
    by (vm_compute; reflexivity).
  split; [reflexivity|]. split; [exact H3|]. split.
  - exact (Hraw _ H3 eq_refl).
  - rewrite (Hlib (or_introl H2)). vm_compute. reflexivity.
Defined.

Lemma init_registers_raw_assets_witness :
  @EDITOR Sample.runtime && Js.truthy (Js.Str (_libraryBase Sample.library)) = false
  /\ snd (init (C := Sample.runtime) Sample.options Sample.library) = Returned
  /\ _uuidToRawAsset Sample.initialised !! "u1"
      = Some {| entry_url := "assets/a.png"; entry_type := Sample.Texture2D |}
  /\ _uuidToRawAsset Sample.initialised !! "u2" = None
  /\ _uuidToRawAsset Sample.initialised !! "u3"
      = Some {| entry_url := "assets/c.raw"; entry_type := Sample.RawFile |}.
Proof.
  destruct (init_registers_raw_assets (C := Sample.runtime)) as (_ & _ & _ & Hinit).
  assert (@EDITOR Sample.runtime
          && Js.truthy (Js.Str (_libraryBase Sample.library)) = false) as Hg
    by reflexivity.
  assert (snd (init (C := Sample.runtime) Sample.options Sample.library) = Returned)
    as Hr by (vm_compute; reflexivity).
  pose proof (Hinit Sample.options Sample.library _ Hg Hr eq_refl) as Hreg.
  split; [exact Hg|]. split; [exact Hr|].
  unfold Sample.initialised.
  split; [|split]; rewrite Hreg; vm_compute; reflexivity.
Defined.


End AssetLibraryFacts.

(** ** The sub-context view *)

Module SubContextViewFacts.
Import SubContextView.

Section Facts.
Context `{C : Constants} `{H : Host}.

(** *** Sequencing *)

Lemma state_bind {A B} (m : M A) (k : A -> M B) s :
  state_of (bind m k s) = state_of (k (fst (fst (m s))) (state_of (m s))).
Proof.
  unfold bind, state_of. destruct (m s) as [[a s1] l1]. simpl.
  now destruct (k a s1) as [[b s2] l2].
Qed.

Lemma effects_bind {A B} (m : M A) (k : A -> M B) s :
  effects_of (bind m k s) =
    (effects_of (m s) ++ effects_of (k (fst (fst (m s))) (state_of (m s))))%list.
Proof.
  unfold bind, effects_of, state_of. destruct (m s) as [[a s1] l1]. simpl.
  now destruct (k a s1) as [[b s2] l2].
Qed.

Lemma posts_app l1 l2 : posts (l1 ++ l2) = posts l1 + posts l2.
Proof. unfold posts. now rewrite List.filter_app, length_app. Qed.

Lemma uploads_app l1 l2 : uploads (l1 ++ l2) = uploads l1 + uploads l2.
Proof. unfold uploads. now rewrite List.filter_app, length_app. Qed.

(** *** The texture copy *)

Lemma _updateSubContextTexture_frame s :
  timing (state_of (_updateSubContextTexture s)) = timing s
  /\ posts (effects_of (_updateSubContextTexture s)) = 0.
Proof.
  unfold _updateSubContextTexture, bind, get, modify, call, ret, state_of, effects_of.
  simpl. destruct (_openDataContext s) as [ctx|]; [|now split].
  destruct (_ || _); [now split|]. simpl.
  destruct (_ || _); now split.
Qed.

Lemma _updateSubContextTexture_uploads s :
  copyReady s -> uploads (effects_of (_updateSubContextTexture s)) = 1.
Proof.
  intros [[ctx Hctx] Hsize]. unfold _updateSubContextTexture.
  unfold bind at 1, get. rewrite Hctx. cbv beta iota zeta. rewrite Hsize.
  unfold bind, get, modify, call, ret, effects_of. simpl.
  match goal with |- context [if ?b then _ else _] => destruct b end; reflexivity.
Qed.

Lemma copyReady_set_updatedTime t s : copyReady (set_updatedTime t s) <-> copyReady s.
Proof. reflexivity. Qed.

(** *** The frame callback *)

Lemma update_due dt now s :
  (_updateInterval s <=? now - _updatedTime s)%float = true ->
  update (Some dt) now s =
    _updateSubContextTexture
      (set_updatedTime (_updatedTime s + _updateInterval s)%float s).
Proof.
  intros Hdue. unfold update. cbv beta iota zeta.
  unfold bind at 1, get. rewrite Hdue.
  unfold bind, modify.
  now destruct (_updateSubContextTexture _) as [[[] s2] l2].
Qed.

Lemma update_not_due dt now s :
  (_updateInterval s <=? now - _updatedTime s)%float = false ->
  update (Some dt) now s = (tt, s, []).
Proof.
  intros Hdue. unfold update. cbv beta iota zeta.
  unfold bind at 1, get. now rewrite Hdue.
Qed.


Lemma update_rate dt now s :
  _fps (state_of (update dt now s)) = _fps s
  /\ _updateInterval (state_of (update dt now s)) = _updateInterval s.
Proof.
  assert (forall s', _fps (state_of (_updateSubContextTexture s')) = _fps s'
                     /\ _updateInterval (state_of (_updateSubContextTexture s'))
                        = _updateInterval s') as Hcopy.
  { intros s'. destruct (_updateSubContextTexture_frame s') as [Ht _].
    unfold timing in Ht. split; congruence. }
  destruct dt as [dt|]; [|apply Hcopy].
  destruct (_updateInterval s <=? now - _updatedTime s)%float eqn:Hdue.
  - rewrite update_due by assumption. exact (Hcopy (set_updatedTime _ s)).
  - now rewrite update_not_due.
Qed.

(** *** What the helpers leave alone *)

Lemma keepsRate_ret {A} (a : A) : keepsRate (ret a).
Proof. now intros s. Qed.

Lemma keepsRate_get : keepsRate get.
Proof. now intros s. Qed.

Lemma keepsRate_call e : keepsRate (call e).
Proof. now intros s. Qed.

Lemma keepsRate_modify f :
  (forall s, _fps (f s) = _fps s /\ _updateInterval (f s) = _updateInterval s) ->
  keepsRate (modify f).
Proof. intros Hf s. apply Hf. Qed.

Lemma keepsRate_bind {A B} (m : M A) (k : A -> M B) :
  keepsRate m -> (forall a, keepsRate (k a)) -> keepsRate (bind m k).
Proof.
  intros Hm Hk s. rewrite state_bind.
  destruct (Hk (fst (fst (m s))) (state_of (m s))) as [-> ->]. apply Hm.
Qed.

Lemma silent_ret {A} (a : A) : silent (ret a).
Proof. now intros s. Qed.

Lemma silent_get : silent get.
Proof. now intros s. Qed.

Lemma silent_modify f : silent (modify f).
Proof. now intros s. Qed.

Lemma silent_call e : isPostMessage e = false -> silent (call e).
Proof. intros He s. unfold call, effects_of, posts. simpl. now rewrite He. Qed.

Lemma silent_bind {A B} (m : M A) (k : A -> M B) :
  silent m -> (forall a, silent (k a)) -> silent (bind m k).
Proof. intros Hm Hk s. now rewrite effects_bind, posts_app, Hm, Hk. Qed.

Ltac step_through :=
  repeat first
    [ apply keepsRate_ret | apply keepsRate_get | apply keepsRate_call
    | apply keepsRate_modify; intros ?; split; reflexivity
    | apply silent_ret | apply silent_get | apply silent_modify
    | apply silent_call; reflexivity
    | apply keepsRate_bind; [|intros ?] | apply silent_bind; [|intros ?]
    | match goal with
      | |- keepsRate (match ?x with _ => _ end) => destruct x
      | |- silent (match ?x with _ => _ end) => destruct x
      end ].

Lemma _initSharedCanvas_keepsRate : keepsRate _initSharedCanvas.
Proof. unfold _initSharedCanvas. step_through. Qed.


Lemma _initContentNode_keepsRate : keepsRate _initContentNode.
Proof. unfold _initContentNode. step_through. Qed.


Lemma _updateSubContextView_keepsRate env : keepsRate (_updateSubContextView env).
Proof. unfold _updateSubContextView. step_through. Qed.

Lemma _registerNodeEvent_keepsRate : keepsRate _registerNodeEvent.
Proof.
  unfold _registerNodeEvent, node_on. step_through.
  all: apply keepsRate_modify; intros s.
  all: destruct (existsb _ (listeners s)); split; reflexivity.
Qed.

Lemma _unregisterNodeEvent_keepsRate : keepsRate _unregisterNodeEvent.
Proof. unfold _unregisterNodeEvent, node_off. step_through. Qed.

Lemma set_designResolutionSize_keepsRate value :
  keepsRate (set_designResolutionSize value).
Proof. unfold set_designResolutionSize. step_through. Qed.

Lemma keepsRate_synced {A} (m : M A) s :
  keepsRate m -> synced s -> synced (state_of (m s)).
Proof. intros Hm Hs. unfold synced. destruct (Hm s) as [-> ->]. exact Hs. Qed.

Lemma set_fps_synced value s : synced s -> synced (state_of (set_fps value s)).
Proof.
  intros Hs. unfold set_fps, bind, get, modify, ret, state_of. simpl.
  destruct (PrimFloat.eqb (_fps s) value); [exact Hs | reflexivity].
Qed.

(** With an adapter that offers [getOpenDataContext], [onLoad] sets the
    interval from [_fps]; without one it leaves both as they are. *)
Lemma onLoad_synced env a ctx s :
  adapter env = Some a -> getOpenDataContext a = Some ctx ->
  synced (state_of (onLoad env s)).
Proof.
  intros Ha Hctx. unfold onLoad. rewrite Ha. destruct a as [odc sys].
  simpl in Hctx. subst odc.
  rewrite state_bind.
  apply keepsRate_synced; [|reflexivity].
  step_through.
Qed.

Lemma onLoad_keeps_synced env s : synced s -> synced (state_of (onLoad env s)).
Proof.
  intros Hs. destruct (adapter env) as [[[ctx|] sys]|] eqn:Ha.
  - eapply onLoad_synced; [exact Ha | reflexivity].
  - unfold onLoad. rewrite Ha. exact Hs.
  - unfold onLoad. rewrite Ha. exact Hs.
Qed.

Lemma step_synced env a s : synced s -> synced (state_of (step env a s)).
Proof.
  intros Hs. destruct a as [| | |type|dt now|value|value]; simpl.
  - now apply onLoad_keeps_synced.
  - apply keepsRate_synced; [apply _registerNodeEvent_keepsRate | exact Hs].
  - apply keepsRate_synced; [apply _unregisterNodeEvent_keepsRate | exact Hs].
  - apply keepsRate_synced; [|exact Hs]. unfold node_emit. step_through.
  - unfold synced. destruct (update_rate dt now s) as [-> ->]. exact Hs.
  - now apply set_fps_synced.
  - apply keepsRate_synced; [apply set_designResolutionSize_keepsRate | exact Hs].
Qed.

Lemma run_synced env actions s : synced s -> synced (state_of (run env actions s)).
Proof.
  revert s. induction actions as [|a rest IH]; intros s Hs; [exact Hs|].
  simpl. rewrite state_bind. apply IH. now apply step_synced.
Qed.


(** *** Where messages are posted *)







(** *** The statements about the component *)

(** C1. A frame call [update(dt)] runs the texture copy exactly when
    [now - _updatedTime >= _updateInterval]: if so the call is
    [_updateSubContextTexture] run after [_updatedTime += _updateInterval]
    (a fixed step, whatever [now] is), and [_updatedTime] ends one
    interval later; if not the call changes nothing and issues no call
    at all. Where the copy's own guards pass (the open data context is
    set and the image has a positive size) the canvas is uploaded once
    in the first case and only then. The interval is [1000 / _fps] at
    every point of a run that starts with [onLoad] on a platform that
    offers an open data context. *)
Theorem update_interval_gate (dt now : float) (s : State) :
  ((_updateInterval s <=? now - _updatedTime s)%float = true ->
     update (Some dt) now s =
       _updateSubContextTexture
         (set_updatedTime (_updatedTime s + _updateInterval s)%float s)
     /\ _updatedTime (state_of (update (Some dt) now s)) =
          (_updatedTime s + _updateInterval s)%float)
  /\ ((_updateInterval s <=? now - _updatedTime s)%float = false ->
        update (Some dt) now s = (tt, s, []))
  /\ (copyReady s ->
        (uploads (effects_of (update (Some dt) now s)) = 1 <->
         (_updateInterval s <=? now - _updatedTime s)%float = true))
  /\ (forall env a ctx actions s0,
        adapter env = Some a -> getOpenDataContext a = Some ctx ->
        let s1 := state_of (run env (DoOnLoad :: actions) s0) in
        _updateInterval s1 = (1000 / _fps s1)%float).
Proof.
  split; [|split; [|split]].
  - intros Hdue. split; [now apply update_due|].
    rewrite update_due by assumption.
    destruct (_updateSubContextTexture_frame
                (set_updatedTime (_updatedTime s + _updateInterval s)%float s))
      as [Ht _].
    unfold timing in Ht. simpl in Ht. congruence.
  - apply update_not_due.
  - intros Hready.
    destruct (_updateInterval s <=? now - _updatedTime s)%float eqn:Hdue.
    + rewrite update_due by assumption.
      rewrite _updateSubContextTexture_uploads; [easy|].
      now apply copyReady_set_updatedTime.
    + rewrite update_not_due by assumption. easy.
  - intros env a ctx actions s0 Ha Hctx. cbv zeta.
    change (synced (state_of (run env (DoOnLoad :: actions) s0))).
    simpl. rewrite state_bind. apply run_synced. now apply (onLoad_synced env a ctx).
Qed.


(** C8. Outside the editor the setter of [designResolutionSize] does
    nothing, whatever is assigned; in the editor it does nothing for a
    value that [equals] the stored size, and for any other value it
    copies the value into the stored size. *)
Theorem set_designResolutionSize_frame (value : Size) (s : State) :
  (EDITOR = false -> set_designResolutionSize value s = (tt, s, []))
  /\ (EDITOR = true -> Size_equals value (_designResolutionSize s) = true ->
        set_designResolutionSize value s = (tt, s, []))
  /\ (EDITOR = true -> Size_equals value (_designResolutionSize s) = false ->
        set_designResolutionSize value s =
          (tt, set_size (Size_set (_designResolutionSize s) value) s, [])).
Proof.
  unfold set_designResolutionSize, bind, get, modify, ret. simpl.
  repeat split; intros ->; [reflexivity | intros ->; reflexivity ..].
Qed.

(** C9. Assigning [fps] a value that is not [===] the stored one stores
    it and sets [_updateInterval] to [1000 / value]; assigning the
    stored value changes nothing. So on a component that [onLoad] has
    not reached, where [_updateInterval] is still [0], assigning the
    default [60] again leaves it [0]. *)
Theorem set_fps_spec (value : float) (s : State) :
  (PrimFloat.eqb (_fps s) value = false ->
     set_fps value s = (tt, set_fps_fields value (1000 / value)%float s, [])
     /\ _fps (state_of (set_fps value s)) = value
     /\ _updateInterval (state_of (set_fps value s)) = (1000 / value)%float)
  /\ (PrimFloat.eqb (_fps s) value = true -> set_fps value s = (tt, s, []))
  /\ (forall now,
        _updateInterval (constructor now) = 0%float
        /\ set_fps 60 (constructor now) = (tt, constructor now, [])).
Proof.
  split; [|split].
  - intros Hne. unfold set_fps, bind, get, modify, ret, state_of. simpl.
    now rewrite Hne.
  - intros Heq. unfold set_fps, bind, get, modify, ret. simpl. now rewrite Heq.
  - intros now. split; [reflexivity|].
    unfold set_fps, bind, get, modify, ret. simpl.
    change (PrimFloat.eqb 60 60) with true. reflexivity.
Qed.

(** C10. A manual call, [update()] without [dt], is
    [_updateSubContextTexture] itself: it does not read the clock or the
    interval, it leaves [_updatedTime] as it was, and where the copy's
    own guards pass it uploads the canvas. *)
Theorem update_manual (now : float) (s : State) :
  update None now s = _updateSubContextTexture s
  /\ _updatedTime (state_of (update None now s)) = _updatedTime s
  /\ (copyReady s -> uploads (effects_of (update None now s)) = 1).
Proof.
  split; [reflexivity|]. split.
  - destruct (_updateSubContextTexture_frame s) as [Ht _].
    unfold timing in Ht. change (update None now s) with (_updateSubContextTexture s).
    congruence.
  - apply _updateSubContextTexture_uploads.
Qed.

End Facts.

(** *** The statements at concrete inputs *)

Import SampleView.
#[local] Existing Instance SampleView.host.

Lemma loaded_copyReady : copyReady loaded.
Proof. split; [eexists; reflexivity | reflexivity]. Defined.


Lemma update_interval_gate_witness :
  (_updateInterval loaded <=? 20 - _updatedTime loaded)%float = true
  /\ _updatedTime (state_of (update (Some 16%float) 20 loaded)) =
       (_updatedTime loaded + _updateInterval loaded)%float
  /\ (_updateInterval loaded <=? 10 - _updatedTime loaded)%float = false
  /\ update (Some 16%float) 10 loaded = (tt, loaded, [])
  /\ uploads (effects_of (update (Some 16%float) 20 loaded)) = 1
  /\ _updateInterval
       (state_of (run (C := Sample.runtime) env
                      [DoOnLoad; DoSetFps 30; DoUpdate (Some 16%float) 40] fresh))
     = (1000 / 30)%float.
Proof.
  destruct (update_interval_gate (C := Sample.runtime) 16 20 loaded)
    as (Hdue & _ & Hup & Hrate).
  destruct (update_interval_gate (C := Sample.runtime) 16 10 loaded)
    as (_ & Hidle & _ & _).
  assert ((_updateInterval loaded <=? 20 - _updatedTime loaded)%float = true) as H1
    by reflexivity.
  assert ((_updateInterval loaded <=? 10 - _updatedTime loaded)%float = false) as H2
    by reflexivity.
  split; [exact H1|]. split; [exact (proj2 (Hdue H1))|]. split; [exact H2|].
  split; [exact (Hidle H2)|]. split; [exact (proj2 (Hup loaded_copyReady) H1)|].
  exact (Hrate env wechat _ [DoSetFps 30; DoUpdate (Some 16%float) 40] fresh
               eq_refl eq_refl).
Defined.


Lemma set_designResolutionSize_frame_witness :
  set_designResolutionSize (C := Sample.runtime) hd fresh = (tt, fresh, [])
  /\ set_designResolutionSize (C := Sample.editor) standard fresh = (tt, fresh, [])
  /\ _designResolutionSize
       (state_of (set_designResolutionSize (C := Sample.editor) hd fresh)) = hd.
Proof.
  destruct (set_designResolutionSize_frame (C := Sample.runtime) hd fresh)
    as (Hrun & _ & _).
  destruct (set_designResolutionSize_frame (C := Sample.editor) standard fresh)
    as (_ & Hsame & _).
  destruct (set_designResolutionSize_frame (C := Sample.editor) hd fresh)
    as (_ & _ & Hset).
  split; [exact (Hrun eq_refl)|]. split; [exact (Hsame eq_refl eq_refl)|].
  rewrite (Hset eq_refl eq_refl). reflexivity.
Defined.

Lemma set_fps_spec_witness :
  PrimFloat.eqb (_fps fresh) 30 = false
  /\ _fps (state_of (set_fps 30 fresh)) = 30%float
  /\ _updateInterval (state_of (set_fps 30 fresh)) = (1000 / 30)%float
  /\ PrimFloat.eqb (_fps loaded) 60 = true
  /\ set_fps 60 loaded = (tt, loaded, []).
Proof.
  destruct (set_fps_spec 30 fresh) as (Hnew & _ & _).
  destruct (set_fps_spec 60 loaded) as (_ & Hsame & _).
  assert (PrimFloat.eqb (_fps fresh) 30 = false) as H1 by reflexivity.
  assert (PrimFloat.eqb (_fps loaded) 60 = true) as H2 by reflexivity.
  split; [exact H1|]. split; [exact (proj1 (proj2 (Hnew H1)))|].
  split; [exact (proj2 (proj2 (Hnew H1)))|]. split; [exact H2 | exact (Hsame H2)].
Defined.

Lemma update_manual_witness :
  copyReady loaded
  /\ uploads (effects_of (update None 0 loaded)) = 1
  /\ _updatedTime (state_of (update None 0 loaded)) = _updatedTime loaded.
Proof.
  destruct (update_manual 0 loaded) as (_ & Htime & Hup).
  split; [exact loaded_copyReady|]. split; [exact (Hup loaded_copyReady) | exact Htime].
Defined.

End SubContextViewFacts.

(** ** The definitions on small inputs *)

Module Examples.

Example split_at_signs : Js.split "@" "ab@c d@" = ["ab"; "c d"; ""].
Proof. reflexivity. Qed.

Example encode_reserved : Js.encodeURIComponent "a b/c@~" = "a%20b%2Fc%40~".
Proof. reflexivity. Qed.

Example decode_compressed_uuid :
  Sample.decodeUuid "fcmR3XADNLgJ1ByKhqcC5Z" = "fc991dd7-0033-4b80-9d41-c8a86a702e59".
Proof. vm_compute. reflexivity. Qed.

Example raw_url_in_build :
  AssetLibrary.getLibUrlNoExt (C := Sample.runtime) (H := Sample.host) Sample.library
    "fcmR3XADNLgJ1ByKhqcC5Z@a b" true
  = "raw/assets/fc/fc991dd7-0033-4b80-9d41-c8a86a702e59@a%20b".
Proof. vm_compute. reflexivity. Qed.

Example init_fills_table :
  AssetLibrary._assetTables Sample.initialised !! "assets"
  = Some [("a.png", "u1", Sample.Texture2D, true);
          ("c.raw", "u3", Sample.RawFile, false)].
Proof. vm_compute. reflexivity. Qed.

Example init_reports_unknown_type :
  snd (fst (AssetLibrary.init (C := Sample.runtime) Sample.options Sample.library))
  = [AssetLibrary.DebugError [Js.Str "Cannot get"; Js.Str "cc.Missing"];
     AssetLibrary.UrlInit "raw/assets"].
Proof. vm_compute. reflexivity. Qed.

Example onLoad_posts_viewport :
  List.filter SubContextView.isPostMessage
    (SubContextView.effects_of (SubContextView.onLoad SampleView.env SampleView.fresh))
  = [SubContextView.PostMessage
       {| SubContextView.fromEngine := true;
          SubContextView.msg_type := "engine";
          SubContextView.msg_event := "viewport";
          SubContextView.msg_x := 93.75; SubContextView.msg_y := 166.75;
          SubContextView.msg_width := 187.5; SubContextView.msg_height := 333.5 |}].
Proof. vm_compute. reflexivity. Qed.

End Examples.

(** * Further properties *)

(** ** Strings *)

Module JsMoreFacts.
Import JsMore.

Lemma allChars_app p (a b : string) :
  allChars p (a +:+ b) = allChars p a && allChars p b.
Proof.
  induction a as [|c a IH]; [reflexivity|].
  rewrite JsFacts.append_cons. simpl. rewrite IH. apply andb_assoc.
Qed.

Lemma allChars_weaken (p q : ascii -> bool) s :
  (forall a, p a = true -> q a = true) -> allChars p s = true -> allChars q s = true.
Proof.
  intros Hpq. induction s as [|c r IH]; [reflexivity|]. simpl.
  intros [Hc Hr]%andb_true_iff. now rewrite (Hpq _ Hc), IH.
Qed.

Lemma allChars_substring p n m s :
  allChars p s = true -> allChars p (String.substring n m s) = true.
Proof.
  revert n m. induction s as [|c r IH]; intros n m Hs.
  - now destruct n, m.
  - simpl in Hs. apply andb_true_iff in Hs as [Hc Hr].
    destruct n as [|n]; destruct m as [|m]; simpl; auto.
    now rewrite Hc, IH.
Qed.

Lemma allChars_indexOf p c s :
  allChars p s = true -> p c = false -> indexOf c s = None.
Proof.
  intros Hs Hc. induction s as [|a r IH]; [reflexivity|].
  simpl in Hs |- *. apply andb_true_iff in Hs as [Ha Hr].
  destruct (Ascii.eqb_spec a c) as [->|_]; [congruence|]. now rewrite IH.
Qed.

Lemma substring_length_le n m s : String.length (String.substring n m s) <= m.
Proof.
  revert n m. induction s as [|c r IH]; intros n m.
  - destruct n, m; simpl; lia.
  - destruct n as [|n]; destruct m as [|m]; simpl; try lia.
    + specialize (IH 0 m). lia.
    + apply (IH n 0).
    + apply (IH n (S m)).
Qed.

Lemma encodeUnit_urlSafe a :
  allChars (fun c => isUnreserved c || Ascii.eqb c "%") (Js.encodeUnit a) = true.
Proof. destruct a as [[] [] [] [] [] [] [] []]; vm_compute; reflexivity. Qed.

Lemma encodeURIComponent_urlSafe s :
  allChars (fun c => isUnreserved c || Ascii.eqb c "%") (Js.encodeURIComponent s) = true.
Proof.
  induction s as [|a r IH]; [reflexivity|]. simpl.
  now rewrite allChars_app, encodeUnit_urlSafe, IH.
Qed.

Lemma join_allChars p (l : list string) :
  p "@"%char = true -> Forall (fun x => allChars p x = true) l ->
  allChars p (Js.join "@" l) = true.
Proof.
  intros Hat. induction l as [|x r IH]; [reflexivity|]. intros Hall.
  inversion Hall as [|? ? Hx Hr]; subst. destruct r as [|y r]; [exact Hx|].
  change (Js.join "@" (x :: y :: r)) with (x +:+ "@" +:+ Js.join "@" (y :: r)).
  rewrite !allChars_app, Hx, (IH Hr). simpl. now rewrite Hat.
Qed.

Lemma encodeUnit_unreserved a : isUnreserved a = true -> Js.encodeUnit a = String a EmptyString.
Proof. unfold isUnreserved, Js.encodeUnit. now intros ->. Qed.

(** [encodeURIComponent] is the identity on strings of kept characters. *)
Lemma encodeURIComponent_unreserved s :
  allChars isUnreserved s = true -> Js.encodeURIComponent s = s.
Proof.
  induction s as [|a r IH]; [reflexivity|]. simpl.
  intros [Ha Hr]%andb_true_iff. now rewrite encodeUnit_unreserved, IH.
Qed.

(** Joining undoes splitting. *)
Lemma join_split s : Js.join "@" (Js.split "@" s) = s.
Proof.
  induction s as [|c r IH]; [reflexivity|]. simpl.
  pose proof (JsFacts.split_nonempty "@" r) as Hne.
  destruct (Js.split "@" r) as [|h t] eqn:Hs; [congruence|].
  destruct (Ascii.eqb_spec c "@") as [->|_].
  - change (Js.join "@" ("" :: h :: t)) with ("" +:+ "@" +:+ Js.join "@" (h :: t)).
    now rewrite IH.
  - destruct t as [|y t]; simpl in IH |- *; [now rewrite IH|].
    rewrite <- IH. reflexivity.
Qed.

(** The segments of a plain string hold kept characters only. *)
Lemma split_plain s :
  allChars plain s = true ->
  Forall (fun x => allChars isUnreserved x = true) (Js.split "@" s).
Proof.
  induction s as [|c r IH]; [repeat constructor|]. simpl.
  intros [Hc Hr]%andb_true_iff. specialize (IH Hr).
  destruct (Ascii.eqb_spec c "@") as [->|Hne]; [now constructor|].
  destruct (Js.split "@" r) as [|h t]; [repeat constructor; simpl|].
  - unfold plain in Hc. apply orb_true_iff in Hc as [->|Hc]; [reflexivity|].
    apply Ascii.eqb_eq in Hc. contradiction.
  - inversion IH as [|? ? Hh Ht]; subst. constructor; [|exact Ht]. simpl.
    rewrite Hh, andb_true_r. unfold plain in Hc.
    apply orb_true_iff in Hc as [->|Hc]; [reflexivity|].
    apply Ascii.eqb_eq in Hc. contradiction.
Qed.

Lemma map_id_on {A} (f : A -> A) (P : A -> Prop) l :
  (forall x, P x -> f x = x) -> Forall P l -> map f l = l.
Proof.
  intros Hf. induction 1 as [|x r Hx Hr IH]; [reflexivity|]. simpl.
  now rewrite (Hf x Hx), IH.
Qed.

Lemma startsWith_app (a b : string) : startsWith (a +:+ b) a = true.
Proof.
  induction a as [|c a IH]; [now destruct b|].
  rewrite JsFacts.append_cons. simpl. now rewrite Ascii.eqb_refl, IH.
Qed.

Lemma indexOf_app_dot (a b : string) :
  allChars plainNoDot a = true ->
  indexOf "." (a +:+ String "." b) = Some (String.length a).
Proof.
  induction a as [|c a IH]; [reflexivity|]. simpl.
  intros [Hc Ha]%andb_true_iff.
  unfold plainNoDot in Hc. apply andb_true_iff in Hc as [_ Hc].
  apply negb_true_iff in Hc. rewrite Hc. now rewrite (IH Ha).
Qed.

Lemma slice_app (a b : string) : Js.slice (a +:+ b) 0 (String.length a) = a.
Proof.
  unfold Js.slice. rewrite Nat.sub_0_r.
  induction a as [|c a IH]; [now destruct b|].
  rewrite JsFacts.append_cons. simpl. now rewrite IH.
Qed.

Lemma slice2_length s : 2 <= String.length s -> String.length (Js.slice s 0 2) = 2.
Proof.
  destruct s as [|a [|b r]]; simpl; try lia. intros _. unfold Js.slice. simpl.
  now destruct r.
Qed.

End JsMoreFacts.

(** ** The asset library *)

Module AssetLibraryMoreFacts.
Import AssetLibrary AssetLibraryMore JsMore.

Section Facts.
Context `{C : Constants} `{H : Host} `{E : EditorHost}.

(** *** The composed url *)

Lemma encodeSegments_urlSafe uuid : allChars urlSafe (encodeSegments uuid) = true.
Proof.
  unfold encodeSegments. apply JsMoreFacts.join_allChars; [reflexivity|].
  induction (Js.split "@" uuid) as [|x r IH]; constructor; [|exact IH].
  eapply JsMoreFacts.allChars_weaken; [|apply JsMoreFacts.encodeURIComponent_urlSafe].
  intros a Ha. unfold urlSafe. cbv beta in Ha. now rewrite Ha.
Qed.

(** X1. Below its base, the url of [getLibUrlNoExt] is a directory of at
    most two characters and a file name, both made of characters that
    [encodeURIComponent] keeps, ['%'] and ['@'] only: neither holds a
    ['/'], so the url has exactly one directory level below the base,
    whatever the uuid. *)
Theorem getLibUrlNoExt_url_safe (st : State) (uuid : string) (inRawAssetsDir : bool) :
  exists dir file,
    getLibUrlNoExt st uuid inRawAssetsDir =
      (if BUILD && inRawAssetsDir then _rawAssetsBase st +:+ "assets/"
       else _libraryBase st) +:+ dir +:+ "/" +:+ file
    /\ allChars urlSafe dir = true /\ allChars urlSafe file = true
    /\ indexOf "/" dir = None /\ indexOf "/" file = None
    /\ String.length dir <= 2.
Proof.
  unfold getLibUrlNoExt.
  set (file := encodeSegments _). exists (Js.slice file 0 2), file.
  assert (allChars urlSafe file = true) as Hfile by apply encodeSegments_urlSafe.
  assert (allChars urlSafe (Js.slice file 0 2) = true) as Hdir
    by now apply JsMoreFacts.allChars_substring.
  repeat split; try assumption.
  - now apply (JsMoreFacts.allChars_indexOf urlSafe).
  - now apply (JsMoreFacts.allChars_indexOf urlSafe).
  - apply JsMoreFacts.substring_length_le.
Qed.

Lemma encodeSegments_plain uuid : allChars plain uuid = true -> encodeSegments uuid = uuid.
Proof.
  intros Hplain. unfold encodeSegments.
  rewrite (JsMoreFacts.map_id_on Js.encodeURIComponent
             (fun x => allChars isUnreserved x = true)).
  - apply JsMoreFacts.join_split.
  - apply JsMoreFacts.encodeURIComponent_unreserved.
  - now apply JsMoreFacts.split_plain.
Qed.

(** X2. A uuid made only of characters [encodeURIComponent] keeps and of
    ['@'] passes through the encoding unchanged; where it is not decoded
    either (outside a build, or a uuid [decodeUuid] returns as it is), its
    url is [base + uuid.slice(0, 2) + '/' + uuid]. *)
Theorem getLibUrlNoExt_plain_uuid (st : State) (uuid : string) (inRawAssetsDir : bool) :
  allChars plain uuid = true ->
  encodeSegments uuid = uuid
  /\ (BUILD = false \/ decodeUuid uuid = uuid ->
      getLibUrlNoExt st uuid inRawAssetsDir =
        (if BUILD && inRawAssetsDir then _rawAssetsBase st +:+ "assets/"
         else _libraryBase st) +:+ Js.slice uuid 0 2 +:+ "/" +:+ uuid).
Proof.
  intros Hplain. pose proof (encodeSegments_plain uuid Hplain) as Henc.
  split; [exact Henc|]. intros Hsame. unfold getLibUrlNoExt.
  destruct Hsame as [-> | Hfix]; [now rewrite Henc|].
  destruct BUILD; [rewrite Hfix|]; now rewrite Henc.
Qed.

(** *** [init] *)

Lemma addRawEntry_bases acc e :
  _libraryBase (fst (addRawEntry acc e)) = _libraryBase (fst acc)
  /\ _rawAssetsBase (fst (addRawEntry acc e)) = _rawAssetsBase (fst acc)
  /\ _uuidToAsset (fst (addRawEntry acc e)) = _uuidToAsset (fst acc).
Proof.
  destruct acc as [st log], e as [[m u] info]. unfold addRawEntry. cbn [fst snd].
  destruct (_getClassById (raw_typeId info)) as [type|] eqn:Hty.
  - rewrite (AssetLibraryFacts.addRawAsset_resolved _ _ _ _ _ _ Hty). now simpl.
  - rewrite (AssetLibraryFacts.addRawAsset_unresolved _ _ _ _ _ Hty). now simpl.
Qed.

Lemma fold_addRawEntry_bases entries acc :
  _libraryBase (fst (fold_left addRawEntry entries acc)) = _libraryBase (fst acc)
  /\ _rawAssetsBase (fst (fold_left addRawEntry entries acc)) = _rawAssetsBase (fst acc)
  /\ _uuidToAsset (fst (fold_left addRawEntry entries acc)) = _uuidToAsset (fst acc).
Proof.
  revert acc. induction entries as [|e rest IH]; intros acc; [now simpl|].
  simpl. destruct (IH (addRawEntry acc e)) as (-> & -> & ->). apply addRawEntry_bases.
Qed.

Lemma addRawEntry_table acc m u info mountPoint :
  _assetTables (fst (addRawEntry acc (m, u, info))) !! mountPoint =
    if String.eqb m mountPoint then
      match _getClassById (raw_typeId info) with
      | Some type =>
          Some (AssetTable_add (raw_url info) u type
                  (negb (bool_decide (raw_2 info = Some 1%Z)))
                  (default AssetTable_new (_assetTables (fst acc) !! mountPoint)))
      | None => _assetTables (fst acc) !! mountPoint
      end
    else _assetTables (fst acc) !! mountPoint.
Proof.
  destruct acc as [st log]. unfold addRawEntry. cbn [fst snd].
  destruct (_getClassById (raw_typeId info)) as [type|] eqn:Hty.
  - rewrite (AssetLibraryFacts.addRawAsset_resolved _ _ _ _ _ _ Hty). simpl.
    destruct (String.eqb_spec m mountPoint) as [->|Hne].
    + apply lookup_insert_eq.
    + now apply lookup_insert_ne.
  - rewrite (AssetLibraryFacts.addRawAsset_unresolved _ _ _ _ _ Hty). simpl.
    now destruct (String.eqb m mountPoint).
Qed.

Lemma fold_addRawEntry_table entries acc mountPoint :
  _assetTables (fst (fold_left addRawEntry entries acc)) !! mountPoint =
    tabled entries mountPoint (_assetTables (fst acc) !! mountPoint).
Proof.
  revert acc. induction entries as [|[[m u] info] rest IH]; intros acc; [reflexivity|].
  simpl. rewrite IH, addRawEntry_table. reflexivity.
Qed.

(** [init] that is neither refused nor fails is the bases set, the tables
    reset and the listed entries folded in. *)
Lemma init_completed options st :
  EDITOR && Js.truthy (Js.Str (_libraryBase st)) = false ->
  snd (init options st) = Returned ->
  exists log,
    fst (fst (init options st)) =
      fst (fold_left addRawEntry (listed options)
             (set_tables (AssetTable_reset <$> _assetTables st) (rebased options st),
              log)).
Proof.
  intros Hguard. unfold init, listed, rebased. rewrite Hguard.
  destruct (md5AssetsMap options) as [[[importEntries|] [rawEntries|]]|];
    destruct (rawAssets options) as [mounts|];
    simpl; try discriminate; intros _.
  all: try (exists []; reflexivity).
  all: match goal with |- context [addRawAssets _ (_, ?L)] => exists L end.
  all: rewrite AssetLibraryFacts.addRawAssets_entries.
  all: now destruct (fold_left addRawEntry _ _) as [st' log'].
Qed.

Lemma truthy_with_slash s : Js.truthy (Js.Str (s +:+ "/")) = true.
Proof. now destruct s. Qed.

Lemma outcome_cases (r : Outcome) : r = Returned \/ r <> Returned.
Proof. destruct r; [now left | now right]. Qed.

Lemma init_refused options st :
  EDITOR && Js.truthy (Js.Str (_libraryBase st)) = true ->
  init options st = (st, [DebugErrorID 6402], Returned).
Proof. intros Hguard. unfold init. now rewrite Hguard. Qed.

Lemma init_failed options st :
  EDITOR && Js.truthy (Js.Str (_libraryBase st)) = false ->
  snd (init options st) <> Returned ->
  init options st = (rebased options st, [], Threw "TypeError")
  /\ exists importEntries,
       md5AssetsMap options =
         Some {| md5_import := Some importEntries; md5_raw_assets := None |}.
Proof.
  intros Hguard. unfold init, rebased. rewrite Hguard.
  destruct (md5AssetsMap options) as [[[importEntries|] [rawEntries|]]|];
    destruct (rawAssets options) as [mounts|]; simpl.
  all: try (intros _; split; [reflexivity | eexists; reflexivity]).
  all: try (intros Hout; exfalso; apply Hout; reflexivity).
  all: intros Hout; exfalso; apply Hout.
  all: now destruct (addRawAssets _ _) as [st' log'].
Qed.

Lemma init_libraryBase options st :
  EDITOR && Js.truthy (Js.Str (_libraryBase st)) = false ->
  _libraryBase (fst (fst (init options st))) =
    stripSep (Js.backslashesToSlashes (libraryPath options)) +:+ "/".
Proof.
  intros Hguard. destruct (outcome_cases (snd (init options st))) as [Hret|Hfail].
  - destruct (init_completed options st Hguard Hret) as [log ->].
    now destruct (fold_addRawEntry_bases (listed options)
                    (set_tables (AssetTable_reset <$> _assetTables st)
                                (rebased options st), log)) as (-> & _).
  - now destruct (init_failed options st Hguard Hfail) as [-> _].
Qed.

(** X3. In the editor the library is initialised at most once: after any
    call of [init], a further call is refused, whatever its options; it
    reports error 6402, changes nothing and returns. *)
Theorem init_once_in_editor (first second : Options) (st : State) :
  EDITOR = true ->
  init second (fst (fst (init first st))) =
    (fst (fst (init first st)), [DebugErrorID 6402], Returned).
Proof.
  intros Hed. apply init_refused. rewrite Hed. simpl.
  destruct (EDITOR && Js.truthy (Js.Str (_libraryBase st))) eqn:Hguard.
  - rewrite (init_refused first st Hguard). simpl.
    now rewrite Hed in Hguard.
  - rewrite (init_libraryBase first st Hguard). apply truthy_with_slash.
Qed.

(** X4. [init] fails exactly when it is not refused and the md5 map lists
    [import] without ['raw-assets']; it then throws after replacing the two
    bases and before anything else: no call has been issued, the asset
    tables are not reset and nothing is registered. *)
Theorem init_fails_on_incomplete_md5 (options : Options) (st : State) :
  (snd (init options st) <> Returned <->
   EDITOR && Js.truthy (Js.Str (_libraryBase st)) = false
   /\ exists importEntries,
        md5AssetsMap options =
          Some {| md5_import := Some importEntries; md5_raw_assets := None |})
  /\ (snd (init options st) <> Returned ->
      init options st = (rebased options st, [], Threw "TypeError")
      /\ _uuidToRawAsset (fst (fst (init options st))) = _uuidToRawAsset st
      /\ _assetTables (fst (fst (init options st))) = _assetTables st).
Proof.
  assert (snd (init options st) <> Returned ->
          EDITOR && Js.truthy (Js.Str (_libraryBase st)) = false) as Hnot.
  { intros Hout. destruct (EDITOR && _) eqn:Hguard; [|reflexivity].
    now rewrite (init_refused options st Hguard) in Hout. }
  split; [split|].
  - intros Hout. split; [now apply Hnot|].
    now destruct (init_failed options st (Hnot Hout) Hout) as [_ Hmd5].
  - intros [Hguard [importEntries Hmd5]]. unfold init. now rewrite Hguard, Hmd5.
  - intros Hout. destruct (init_failed options st (Hnot Hout) Hout) as [Hinit _].
    rewrite Hinit. repeat split.
Qed.

Lemma registered_keeps entries uuid before :
  is_Some before -> is_Some (registered entries uuid before).
Proof.
  revert before. induction entries as [|[[m u] info] rest IH]; intros before Hb;
    [exact Hb|].
  simpl. apply IH. destruct (String.eqb u uuid); [|exact Hb].
  destruct (rawAssetEntryOf m info); [eauto | exact Hb].
Qed.

(** X5. [init] only ever adds to the raw-asset registry: a uuid registered
    before is still registered after, whether [init] completes, is refused
    or fails, although the asset tables are reset; and it never touches the
    cache of loaded assets. *)
Theorem init_keeps_registry (options : Options) (st : State) :
  (forall uuid,
     is_Some (_uuidToRawAsset st !! uuid) ->
     is_Some (_uuidToRawAsset (fst (fst (init options st))) !! uuid))
  /\ _uuidToAsset (fst (fst (init options st))) = _uuidToAsset st.
Proof.
  destruct (EDITOR && Js.truthy (Js.Str (_libraryBase st))) eqn:Hguard.
  { rewrite (init_refused options st Hguard). now split. }
  destruct (outcome_cases (snd (init options st))) as [Hret|Hfail].
  - destruct (init_completed options st Hguard Hret) as [log ->]. split.
    + intros uuid Hreg. rewrite AssetLibraryFacts.fold_addRawEntry_lookup.
      now apply registered_keeps.
    + now destruct (fold_addRawEntry_bases (listed options)
                      (set_tables (AssetTable_reset <$> _assetTables st)
                                  (rebased options st), log)) as (_ & _ & ->).
  - destruct (init_failed options st Hguard Hfail) as [-> _]. now split.
Qed.

Lemma tabled_keeps entries mountPoint before :
  is_Some before -> is_Some (tabled entries mountPoint before).
Proof.
  revert before. induction entries as [|[[m u] info] rest IH]; intros before Hb;
    [exact Hb|].
  simpl. apply IH. destruct (String.eqb m mountPoint); [|exact Hb].
  destruct (_getClassById (raw_typeId info)); [eauto | exact Hb].
Qed.

(** X6. When [init] completes, the table of every mount point is the
    table it had, reset, with the resolved entries listed under that mount
    point added in order (a new table for a mount point that had none); so
    a mount point that had a table keeps one, emptied of its old entries. *)
Theorem init_fills_tables (options : Options) (st : State) :
  EDITOR && Js.truthy (Js.Str (_libraryBase st)) = false ->
  snd (init options st) = Returned ->
  forall mountPoint,
    _assetTables (fst (fst (init options st))) !! mountPoint =
      tabled (listed options) mountPoint
             (AssetTable_reset <$> _assetTables st !! mountPoint)
    /\ (is_Some (_assetTables st !! mountPoint) ->
        is_Some (_assetTables (fst (fst (init options st))) !! mountPoint)).
Proof.
  intros Hguard Hret mountPoint.
  destruct (init_completed options st Hguard Hret) as [log ->].
  rewrite fold_addRawEntry_table. simpl. rewrite lookup_fmap.
  split; [reflexivity|]. intros [t Ht]. apply tabled_keeps. rewrite Ht. simpl. eauto.
Qed.

(** *** Asset information *)

(** X7. [_getAssetInfoInRuntime] does not depend on the result object it
    is given; the url it returns is never [null]; and it marks as raw only
    uuids that are in the settings. *)
Theorem _getAssetInfoInRuntime_result (st : State) (uuid : string) (result : AssetInfo) :
  _getAssetInfoInRuntime st uuid (Some result) = _getAssetInfoInRuntime st uuid None
  /\ is_Some (info_url (_getAssetInfoInRuntime st uuid None))
  /\ (info_raw (_getAssetInfoInRuntime st uuid None) = true ->
      _uuidInSettings st uuid = true).
Proof.
  unfold _getAssetInfoInRuntime, _uuidInSettings, set_info. simpl.
  destruct (_uuidToRawAsset st !! uuid) as [info|] eqn:Hreg.
  - assert (bool_decide (is_Some (Some info)) = true) as Hin
      by (apply bool_decide_eq_true; eauto).
    destruct (isChildClassOf (entry_type info) Asset); simpl; repeat split; eauto.
  - simpl. repeat split; eauto; discriminate.
Qed.

(** X8. [queryAssetInfo] leads to exactly one call of the callback in
    every configuration and whatever the editor answers: made at once at
    run time, made by the handler of the editor query in the editor. The
    call passes either an [Error] alone or [null] with a url and the raw
    mark. *)
Theorem queryAssetInfo_one_callback (st : State) (uuid : string) (callback : Callback)
    (answer : string -> Js.Value * EditorInfo) :
  let calls := concat (map (answered answer) (queryAssetInfo st uuid callback)) in
  length (List.filter isQueryCallback calls) = 1
  /\ forallb errorOrUrl calls = true.
Proof.
  cbv zeta. unfold queryAssetInfo, _queryAssetInfoInEditor.
  destruct (EDITOR && negb TEST) eqn:Hed.
  - apply andb_true_iff in Hed as [-> _]. simpl.
    unfold _queryAssetInfoInEditor_onInfo.
    destruct (Js.truthy (answer uuid).1); [now split|].
    destruct (getClassByName _); now split.
  - simpl. unfold _getAssetInfoInRuntime, set_info. simpl.
    destruct (_uuidToRawAsset st !! uuid) as [info|]; [|now split].
    destruct (isChildClassOf (entry_type info) Asset); now split.
Qed.

(** *** [loadJson] *)

(** X9. The handler of [loadJson] reaches the callback only with an asset
    object in hand: it assigns [asset._uuid] whatever the loader reported,
    so when the loader delivers no object (as on a failed load) it throws
    a [TypeError] and the callback is never called, the error going
    unreported. With an object it returns, having cleared the uuid and then
    called the callback once, with an error that is truthy exactly when the
    loader's was. *)
Theorem loadJson_callback_needs_asset (randomUuid : string) (callback : Callback)
    (error asset : Js.Value) :
  (isObject asset = false ->
     snd (loadJson_onLoaded randomUuid (Some callback) error asset) = Threw "TypeError"
     /\ List.filter isJsonCallback
          (fst (loadJson_onLoaded randomUuid (Some callback) error asset)) = [])
  /\ (isObject asset = true ->
      snd (loadJson_onLoaded randomUuid (Some callback) error asset) = Returned
      /\ exists before error',
           fst (loadJson_onLoaded randomUuid (Some callback) error asset) =
             (before ++ [ClearUuid asset; JsonCallback callback error' asset])%list
           /\ List.filter isJsonCallback before = []
           /\ Js.truthy error' = Js.truthy error).
Proof.
  unfold loadJson_onLoaded. split; intros ->; simpl.
  - split; [reflexivity|]. destruct (Js.truthy error); [reflexivity|].
    now destruct (EDITOR || isScene asset).
  - split; [reflexivity|]. destruct (Js.truthy error) eqn:Herr.
    + exists [], (Js.ErrorObj ("[AssetLibrary] loading JSON or dependencies failed: "
                               +:+ Js.messageText error) None).
      now repeat split.
    + destruct (EDITOR || isScene asset);
        [exists [RemoveItem (_getReferenceKey randomUuid)], error
        | exists [], error]; now repeat split.
Qed.

(** X10. The handler of [loadJson] removes the temporary item from the
    loader, under the reference key of the random uuid, exactly when the
    loader reported no error and the code runs in the editor or the asset
    is a scene; it does so before touching the asset, so also when it then
    throws. *)
Theorem loadJson_removes_item (randomUuid : string) (callback : option Callback)
    (error asset : Js.Value) :
  List.filter isRemoveItem (fst (loadJson_onLoaded randomUuid callback error asset)) =
    if negb (Js.truthy error) && (EDITOR || isScene asset)
    then [RemoveItem (_getReferenceKey randomUuid)] else [].
Proof.
  unfold loadJson_onLoaded.
  destruct (isObject asset), (Js.truthy error), (EDITOR || isScene asset), callback;
    reflexivity.
Qed.

(** *** [parseUuidInEditor] *)

(** X11. In the editor, [parseUuidInEditor] recovers the uuid from the url
    [getLibUrlNoExt] composes for it, with any extension appended: for a
    uuid of at least two characters, made of characters the encoding keeps
    and of ['@'] and free of dots, provided [path.dirname] and
    [path.basename] split this url at its last two separators. *)
Theorem parseUuidInEditor_getLibUrlNoExt (st : State) (uuid ext : string) :
  EDITOR = true -> BUILD = false ->
  allChars plainNoDot uuid = true -> 2 <= String.length uuid ->
  dirname (getLibUrlNoExt st uuid false +:+ String "." ext) =
    _libraryBase st +:+ Js.slice uuid 0 2 ->
  basename (_libraryBase st +:+ Js.slice uuid 0 2) = Js.slice uuid 0 2 ->
  basename (getLibUrlNoExt st uuid false +:+ String "." ext) = uuid +:+ String "." ext ->
  parseUuidInEditor st (getLibUrlNoExt st uuid false +:+ String "." ext) = Some uuid.
Proof.
  intros Hed Hbuild Hchars Hlen Hdir Hdirbase Hbase.
  unfold parseUuidInEditor. rewrite Hed, Hdir, Hdirbase, Hbase.
  assert (JsMore.startsWith (getLibUrlNoExt st uuid false +:+ String "." ext)
                            (_libraryBase st) = true) as ->.
  { unfold getLibUrlNoExt. rewrite Hbuild. simpl.
    rewrite JsFacts.append_assoc. apply JsMoreFacts.startsWith_app. }
  rewrite (JsMoreFacts.slice2_length uuid Hlen). simpl.
  rewrite (JsMoreFacts.indexOf_app_dot uuid ext Hchars).
  now rewrite JsMoreFacts.slice_app.
Qed.

End Facts.

(** *** The statements at concrete inputs *)

#[local] Existing Instance Sample.host.
#[local] Existing Instance SampleMore.editorHost.

Lemma getLibUrlNoExt_plain_uuid_witness :
  allChars plain "fc991dd7-0033@a1" = true
  /\ encodeSegments "fc991dd7-0033@a1" = "fc991dd7-0033@a1"
  /\ getLibUrlNoExt (C := Sample.preview) Sample.library "fc991dd7-0033@a1" false
     = "lib/fc/fc991dd7-0033@a1".
Proof.
  assert (allChars plain "fc991dd7-0033@a1" = true) as Hplain by reflexivity.
  destruct (getLibUrlNoExt_plain_uuid (C := Sample.preview) Sample.library
              "fc991dd7-0033@a1" false Hplain) as [Henc Hurl].
  split; [exact Hplain|]. split; [exact Henc|].
  rewrite (Hurl (or_introl eq_refl)). reflexivity.
Defined.

Lemma init_once_in_editor_witness :
  @EDITOR Sample.editor = true
  /\ snd (fst (init (C := Sample.editor) Sample.options
                    (fst (fst (init (C := Sample.editor) Sample.options
                                    Sample.library)))))
     = [DebugErrorID 6402].
Proof.
  split; [reflexivity|].
  now rewrite (init_once_in_editor (C := Sample.editor) Sample.options Sample.options
                                   Sample.library eq_refl).
Defined.

Lemma init_fails_on_incomplete_md5_witness :
  snd (init (C := Sample.runtime) SampleMore.incomplete Sample.library) <> Returned
  /\ init (C := Sample.runtime) SampleMore.incomplete Sample.library =
       (rebased SampleMore.incomplete Sample.library, [], Threw "TypeError")
  /\ _uuidToRawAsset (fst (fst (init (C := Sample.runtime) SampleMore.incomplete
                                     Sample.library))) = ∅.
Proof.
  destruct (init_fails_on_incomplete_md5 (C := Sample.runtime) SampleMore.incomplete
                                         Sample.library) as [Hiff Hthen].
  assert (snd (init (C := Sample.runtime) SampleMore.incomplete Sample.library)
          <> Returned) as Hout.
  { apply Hiff. split; [reflexivity | eexists; reflexivity]. }
  destruct (Hthen Hout) as (Hinit & Hreg & _).
  split; [exact Hout|]. split; [exact Hinit | exact Hreg].
Defined.

Lemma init_keeps_registry_witness :
  is_Some (_uuidToRawAsset Sample.initialised !! "u3")
  /\ is_Some (_uuidToRawAsset
                (fst (fst (init (C := Sample.runtime) SampleMore.incomplete
                                Sample.initialised))) !! "u3").
Proof.
  destruct (init_keeps_registry (C := Sample.runtime) SampleMore.incomplete
                                Sample.initialised) as [Hkeep _].
  assert (is_Some (_uuidToRawAsset Sample.initialised !! "u3")) as Hreg
    by (vm_compute; eauto).
  split; [exact Hreg | exact (Hkeep "u3" Hreg)].
Defined.

Lemma init_fills_tables_witness :
  @EDITOR Sample.runtime
    && Js.truthy (Js.Str (_libraryBase Sample.initialised)) = false
  /\ snd (init (C := Sample.runtime) Sample.options Sample.initialised) = Returned
  /\ _assetTables (fst (fst (init (C := Sample.runtime) Sample.options
                                  Sample.initialised))) !! "assets"
     = Some [("a.png", "u1", Sample.Texture2D, true);
             ("c.raw", "u3", Sample.RawFile, false)].
Proof.
  assert (@EDITOR Sample.runtime
          && Js.truthy (Js.Str (_libraryBase Sample.initialised)) = false) as Hguard
    by reflexivity.
  assert (snd (init (C := Sample.runtime) Sample.options Sample.initialised) = Returned)
    as Hret by (vm_compute; reflexivity).
  destruct (init_fills_tables (C := Sample.runtime) Sample.options Sample.initialised
                              Hguard Hret "assets") as [Htable _].
  split; [exact Hguard|]. split; [exact Hret|].
  etransitivity; [exact Htable | vm_compute; reflexivity].
Defined.

Lemma _getAssetInfoInRuntime_result_witness :
  info_raw (_getAssetInfoInRuntime (C := Sample.runtime) Sample.initialised "u3" None)
    = true
  /\ _uuidInSettings Sample.initialised "u3" = true.
Proof.
  destruct (_getAssetInfoInRuntime_result (C := Sample.runtime) Sample.initialised "u3"
              {| info_url := None; info_raw := false |}) as (_ & _ & Hraw).
  assert (info_raw (_getAssetInfoInRuntime (C := Sample.runtime) Sample.initialised
                                           "u3" None) = true) as Hr
    by (vm_compute; reflexivity).
  split; [exact Hr | exact (Hraw Hr)].
Defined.

Lemma loadJson_callback_needs_asset_witness :
  isObject Js.Undefined = false
  /\ snd (loadJson_onLoaded (C := Sample.runtime) "1730000000000.5" (Some 7)
                            (Js.ErrorObj "bad json" None) Js.Undefined)
     = Threw "TypeError"
  /\ isObject (Js.AssetObj false true) = true
  /\ snd (loadJson_onLoaded (C := Sample.runtime) "1730000000000.5" (Some 7)
                            Js.Null (Js.AssetObj false true))
     = Returned.
Proof.
  destruct (loadJson_callback_needs_asset (C := Sample.runtime) "1730000000000.5"
              (7 : @Callback Sample.host) (Js.ErrorObj "bad json" None) Js.Undefined)
    as [Hthrow _].
  destruct (loadJson_callback_needs_asset (C := Sample.runtime) "1730000000000.5"
              (7 : @Callback Sample.host) Js.Null (Js.AssetObj false true))
    as [_ Hcall].
  split; [reflexivity|]. split; [exact (proj1 (Hthrow eq_refl))|].
  split; [reflexivity | exact (proj1 (Hcall eq_refl))].
Defined.

Lemma parseUuidInEditor_getLibUrlNoExt_witness :
  allChars plainNoDot "ab12-cd@f" = true
  /\ getLibUrlNoExt (C := Sample.editor) Sample.library "ab12-cd@f" false +:+ ".json"
     = "lib/ab/ab12-cd@f.json"
  /\ parseUuidInEditor (C := Sample.editor) Sample.library
       (getLibUrlNoExt (C := Sample.editor) Sample.library "ab12-cd@f" false +:+ ".json")
     = Some "ab12-cd@f".
Proof.
  split; [reflexivity|]. split; [reflexivity|].
  apply (parseUuidInEditor_getLibUrlNoExt (C := Sample.editor) Sample.library
           "ab12-cd@f" "json"); try reflexivity.
  simpl. lia.
Defined.

End AssetLibraryMoreFacts.

(** ** The sub-context view *)

Module SubContextViewMoreFacts.
Import SubContextView SubContextViewMore.

Section Facts.
Context `{C : Constants} `{H : Host}.

(** *** Invariants of runs *)

(** A property of the fields that every action keeps, and a property of
    calls that every action meets, hold along every run. *)
Lemma run_invariant (env : Env) (P : State -> Prop) (Q : Effect -> bool) :
  (forall a s, P s ->
     P (state_of (step env a s)) /\ forallb Q (effects_of (step env a s)) = true) ->
  forall actions s, P s ->
    P (state_of (run env actions s))
    /\ forallb Q (effects_of (run env actions s)) = true.
Proof.
  intros Hstep. induction actions as [|a rest IH]; intros s Hs; [now split|].
  simpl. rewrite SubContextViewFacts.state_bind, SubContextViewFacts.effects_bind.
  destruct (Hstep a s Hs) as [Hs1 Hq1]. destruct (IH _ Hs1) as [Hs2 Hq2].
  split; [exact Hs2|]. now rewrite forallb_app, Hq1, Hq2.
Qed.

Lemma obeys_ret P Q {A} (a : A) : obeys P Q (ret a).
Proof. now intros s Hs. Qed.

Lemma obeys_get P Q : obeys P Q get.
Proof. now intros s Hs. Qed.

Lemma obeys_call P Q e : Q e = true -> obeys P Q (call e).
Proof. intros He s Hs. split; [exact Hs|]. simpl. now rewrite He. Qed.

Lemma obeys_modify P Q f : (forall s, P s -> P (f s)) -> obeys P Q (modify f).
Proof. intros Hf s Hs. split; [now apply Hf | reflexivity]. Qed.

Lemma obeys_bind P Q {A B} (m : M A) (k : A -> M B) :
  obeys P Q m -> (forall a, obeys P Q (k a)) -> obeys P Q (bind m k).
Proof.
  intros Hm Hk s Hs.
  rewrite SubContextViewFacts.state_bind, SubContextViewFacts.effects_bind.
  destruct (Hm s Hs) as [Hs1 Hq1].
  destruct (Hk (fst (fst (m s))) _ Hs1) as [Hs2 Hq2].
  split; [exact Hs2|]. now rewrite forallb_app, Hq1, Hq2.
Qed.

(** A body that starts by reading the fields may use [P] on what it read. *)
Lemma obeys_read P Q {B} (k : State -> M B) :
  (forall s, P s -> P (state_of (k s s)) /\ forallb Q (effects_of (k s s)) = true) ->
  obeys P Q (bind get k).
Proof.
  intros Hk s Hs. rewrite SubContextViewFacts.state_bind, SubContextViewFacts.effects_bind.
  exact (Hk s Hs).
Qed.

Lemma run_obeys env P Q :
  (forall a, obeys P Q (step env a)) -> forall actions, obeys P Q (run env actions).
Proof.
  intros Hstep actions s Hs. apply run_invariant; [|exact Hs].
  intros a s' Hs'. now apply Hstep.
Qed.

(** Goes through a method body by its sequencing and its tests; [side]
    settles what a call or an assignment has to satisfy. *)
Ltac obey side :=
  repeat first
    [ apply obeys_ret | apply obeys_get
    | apply obeys_call; side
    | apply obeys_modify; side
    | apply obeys_bind; [|intros ?]
    | progress cbv zeta
    | match goal with
      | |- obeys _ _ (match ?x with _ => _ end) => destruct x
      end ].

(** *** Messages *)

Lemma step_viewport env a : obeys anyState isViewportMessage (step env a).
Proof.
  destruct a; simpl;
    unfold onLoad, onEnable, onDisable, _registerNodeEvent, _unregisterNodeEvent,
      node_on, node_off, node_emit, update, set_fps, set_designResolutionSize;
    obey ltac:(first [reflexivity | now intros]).
Qed.

(** X12. Every message the component ever posts is the engine's viewport
    message ([fromEngine], type ['engine'], event ['viewport']): no action
    of any run posts anything else. *)
Theorem posts_viewport_messages_only (env : Env) (actions : list Action) (s : State) :
  forallb isViewportMessage (effects_of (run env actions s)) = true.
Proof. now apply (run_obeys env anyState isViewportMessage (step_viewport env)). Qed.

(** *** Without an open data context *)

(** The component holds no open data context. *)
Local Notation "'contextless'" := (fun s : State => _openDataContext s = None).

Ltac keep_field :=
  intros ? ?; simpl;
  try match goal with |- context [if ?b then _ else _] => destruct b end;
  assumption.

Lemma _initSharedCanvas_contextless : obeys contextless isNodeCall _initSharedCanvas.
Proof.
  apply obeys_read. intros s Hs. cbv beta in Hs |- *. rewrite Hs. now split.
Qed.

Lemma _initContentNode_contextless : obeys contextless isNodeCall _initContentNode.
Proof.
  apply obeys_read. intros s Hs. cbv beta in Hs |- *. rewrite Hs. now split.
Qed.

Lemma _updateSubContextView_contextless env :
  obeys contextless isNodeCall (_updateSubContextView env).
Proof.
  apply obeys_read. intros s Hs. cbv beta in Hs |- *. rewrite Hs. now split.
Qed.

Lemma _updateSubContextTexture_contextless :
  obeys contextless isNodeCall _updateSubContextTexture.
Proof.
  apply obeys_read. intros s Hs. cbv beta zeta in Hs |- *. rewrite Hs. now split.
Qed.

Lemma onLoad_contextless env :
  offersContext env = false -> obeys contextless isNodeCall (onLoad env).
Proof.
  unfold offersContext, onLoad. intros Hoff.
  destruct (adapter env) as [[[[ctx|]|] sys]|]; try discriminate.
  - apply obeys_bind; [apply obeys_modify; keep_field | intros _].
    apply obeys_bind; [apply obeys_modify; now intros | intros _].
    apply obeys_bind; [apply _initSharedCanvas_contextless | intros _].
    apply obeys_bind; [apply _initContentNode_contextless | intros _].
    apply _updateSubContextView_contextless.
  - obey keep_field.
  - obey keep_field.
Qed.

Lemma step_contextless env a :
  offersContext env = false -> obeys contextless isNodeCall (step env a).
Proof.
  intros Hoff. destruct a as [| | |type|dt now|value|value]; simpl.
  - now apply onLoad_contextless.
  - unfold onEnable, _registerNodeEvent, node_on.
    obey ltac:(first [reflexivity | keep_field]).
  - unfold onDisable, _unregisterNodeEvent, node_off.
    obey ltac:(first [reflexivity | keep_field]).
  - unfold node_emit. apply obeys_bind; [apply obeys_get | intros s0].
    destruct (existsb _ _); [apply _updateSubContextView_contextless | apply obeys_ret].
  - unfold update. destruct dt as [dt|]; simpl;
      [|apply _updateSubContextTexture_contextless].
    apply obeys_bind; [apply obeys_get | intros s0]. cbv zeta.
    destruct (_ <=? _)%float; [|apply obeys_ret].
    apply obeys_bind; [apply obeys_modify; keep_field | intros _].
    apply _updateSubContextTexture_contextless.
  - unfold set_fps. obey keep_field.
  - unfold set_designResolutionSize. obey keep_field.
Qed.

(** X13. On a platform that hands out no open data context the component
    is inert: along any run from a state without a context it never gets
    one, and it issues no call at all besides registering and unregistering
    its node events; no image reset, no texture call, no message. *)
Theorem inert_without_context (env : Env) (actions : list Action) (s : State) :
  offersContext env = false -> _openDataContext s = None ->
  _openDataContext (state_of (run env actions s)) = None
  /\ forallb isNodeCall (effects_of (run env actions s)) = true.
Proof.
  intros Hoff Hs.
  exact (run_obeys env contextless isNodeCall
           (fun a => step_contextless env a Hoff) actions s Hs).
Qed.

(** *** The texture copy *)

Lemma _updateSubContextTexture_shape s :
  match _openDataContext s with
  | Some ctx => copyShape (canvas ctx) (effects_of (_updateSubContextTexture s))
  | None => effects_of (_updateSubContextTexture s) = []
  end.
Proof.
  unfold _updateSubContextTexture, bind, get, modify, call, ret, effects_of, copyShape.
  simpl. destruct (_openDataContext s) as [ctx|]; [|reflexivity].
  destruct (_ || _); [now left|]. simpl.
  destruct (_ || _); simpl; auto.
Qed.

Lemma _updateSubContextTexture_settings s :
  settings (state_of (_updateSubContextTexture s)) = settings s.
Proof.
  unfold _updateSubContextTexture, bind, get, modify, call, ret, state_of, settings.
  simpl. destruct (_openDataContext s) as [ctx|] eqn:Hctx; simpl;
    [|now rewrite Hctx].
  destruct (_ || _); simpl; [now rewrite Hctx|].
  destruct (_ || _); simpl; now rewrite Hctx.
Qed.

(** X14. What [_updateSubContextTexture] issues is one of three things:
    nothing; a reset of the image to the shared canvas and the upload of
    that canvas; or the same with the texture created anew, at the
    canvas's size, in between. Without an open data context it is nothing.
    It touches no field but [_imageAsset]. *)
Theorem _updateSubContextTexture_calls (s : State) :
  match _openDataContext s with
  | Some ctx => copyShape (canvas ctx) (effects_of (_updateSubContextTexture s))
  | None => effects_of (_updateSubContextTexture s) = []
  end
  /\ settings (state_of (_updateSubContextTexture s)) = settings s
  /\ _updatedTime (state_of (_updateSubContextTexture s)) = _updatedTime s.
Proof.
  split; [apply _updateSubContextTexture_shape|].
  split; [apply _updateSubContextTexture_settings|].
  now destruct (SubContextViewFacts._updateSubContextTexture_frame s) as [[= _ ->] _].
Qed.

Lemma _updateSubContextTexture_uploads_le s :
  uploads (effects_of (_updateSubContextTexture s)) <= 1.
Proof.
  pose proof (_updateSubContextTexture_shape s) as Hshape.
  destruct (_openDataContext s) as [ctx|]; [|rewrite Hshape; unfold uploads; simpl; lia].
  destruct Hshape as [-> | [-> | ->]]; unfold uploads; simpl; lia.
Qed.

Lemma update_uploads_le dt now s : uploads (effects_of (update dt now s)) <= 1.
Proof.
  destruct dt as [dt|]; [|apply _updateSubContextTexture_uploads_le].
  destruct (_updateInterval s <=? now - _updatedTime s)%float eqn:Hdue.
  - rewrite SubContextViewFacts.update_due by assumption.
    apply _updateSubContextTexture_uploads_le.
  - rewrite SubContextViewFacts.update_not_due by assumption. unfold uploads. simpl. lia.
Qed.

Lemma noUpload_uploads log : forallb noUpload log = true -> uploads log = 0.
Proof.
  unfold uploads, noUpload. induction log as [|e log IH]; [reflexivity|]. simpl.
  intros [He Hlog]%andb_true_iff. apply negb_true_iff in He. rewrite He. now apply IH.
Qed.

Lemma step_no_upload env a :
  isUpdate a = false -> obeys anyState noUpload (step env a).
Proof.
  destruct a; simpl; try discriminate; intros _;
    unfold onLoad, onEnable, onDisable, _registerNodeEvent, _unregisterNodeEvent,
      node_on, node_off, node_emit, set_fps, set_designResolutionSize;
    obey ltac:(first [reflexivity | now intros]).
Qed.

(** X15. The texture is copied at most once per call of [update]: along
    any run the canvas is uploaded no more often than [update] is called,
    however late a frame comes, and no other action uploads it. *)
Theorem uploads_bounded_by_updates (env : Env) (actions : list Action) (s : State) :
  uploads (effects_of (run env actions s)) <= updates actions.
Proof.
  revert s. induction actions as [|a rest IH]; intros s; [unfold uploads; simpl; lia|].
  simpl. rewrite SubContextViewFacts.effects_bind, SubContextViewFacts.uploads_app.
  specialize (IH (state_of (step env a s))). unfold updates in *. simpl.
  destruct (isUpdate a) eqn:Ha.
  - destruct a; try discriminate. simpl in *.
    pose proof (update_uploads_le dt now s). lia.
  - destruct (step_no_upload env a Ha s I) as [_ Hno].
    rewrite (noUpload_uploads _ Hno). simpl. lia.
Qed.

(** X16. A frame call touches only the timer and the image: [update]
    leaves [_fps], [_updateInterval], the open data context, the content
    node, the sprite, the design resolution, [enabled] and the
    registrations as they were. *)
Theorem update_keeps_settings (dt : option float) (now : float) (s : State) :
  settings (state_of (update dt now s)) = settings s.
Proof.
  destruct dt as [dt|]; [|apply _updateSubContextTexture_settings].
  destruct (_updateInterval s <=? now - _updatedTime s)%float eqn:Hdue.
  - rewrite SubContextViewFacts.update_due by assumption.
    now rewrite _updateSubContextTexture_settings.
  - now rewrite SubContextViewFacts.update_not_due.
Qed.

(** *** The design resolution and [enabled] *)

Lemma step_keeps_design env a d :
  EDITOR = false ->
  obeys (fun s => _designResolutionSize s = d) anyCall (step env a).
Proof.
  intros Hed. destruct a; simpl;
    unfold onLoad, onEnable, onDisable, _registerNodeEvent, _unregisterNodeEvent,
      node_on, node_off, node_emit, update, set_fps, set_designResolutionSize;
    rewrite ?Hed; simpl;
    obey ltac:(first [reflexivity | keep_field]).
Qed.

(** X17. Outside the editor the design resolution cannot change: no run
    of actions, assignments to [designResolutionSize] among them, alters
    the stored size. *)
Theorem designResolutionSize_fixed_at_runtime (env : Env) (actions : list Action)
    (s : State) :
  EDITOR = false ->
  _designResolutionSize (state_of (run env actions s)) = _designResolutionSize s.
Proof.
  intros Hed.
  now apply (run_obeys env (fun s' => _designResolutionSize s' = _designResolutionSize s)
               anyCall (fun a => step_keeps_design env a _ Hed) actions s).
Qed.

Lemma step_keeps_disabled env a :
  obeys (fun s => enabled s = false) anyCall (step env a).
Proof.
  destruct a; simpl;
    unfold onLoad, onEnable, onDisable, _registerNodeEvent, _unregisterNodeEvent,
      node_on, node_off, node_emit, update, set_fps, set_designResolutionSize;
    obey ltac:(first [reflexivity | keep_field | now intros]).
Qed.

(** X18. [onLoad] on a platform whose adapter is missing or lacks
    [getOpenDataContext] disables the component and does nothing else; and
    the component never enables itself: once [enabled] is false it stays
    false along every run. *)
Theorem disabled_without_adapter (env : Env) (actions : list Action) (s : State) :
  (adapter env = None
   \/ (exists a, adapter env = Some a /\ getOpenDataContext a = None) ->
   onLoad env s = (tt, set_enabled false s, []))
  /\ (enabled s = false -> enabled (state_of (run env actions s)) = false).
Proof.
  split.
  - unfold onLoad. intros [-> | (a & -> & Hno)]; [reflexivity|].
    destruct a as [odc sys]. simpl in Hno. now subst odc.
  - intros Hoff.
    now apply (run_obeys env (fun s' => enabled s' = false) anyCall
                 (step_keeps_disabled env) actions s).
Qed.

(** *** Node events *)

Lemma existsb_filter_out (type other : NodeEventType) l :
  existsb (NodeEventType_eqb type)
          (List.filter (fun t => negb (NodeEventType_eqb other t)) l) =
    existsb (NodeEventType_eqb type) l && negb (NodeEventType_eqb other type).
Proof.
  induction l as [|t l IH]; [reflexivity|]. simpl.
  destruct (NodeEventType_eqb other t) eqn:Ho; simpl; rewrite IH;
    destruct type, t, other; simpl in *; try discriminate;
    destruct (existsb _ l); reflexivity.
Qed.

(** X19. [onDisable] undoes the registrations of [onEnable]: it takes the
    callback off both node events, whatever was registered, so a transform
    or size change of the node after it runs nothing; no message is posted
    and no field changes. *)
Theorem onDisable_silences_node_events (env : Env) (type : NodeEventType) (s : State) :
  effects_of (onDisable s) = [NodeOff TRANSFORM_CHANGED; NodeOff SIZE_CHANGED]
  /\ existsb (NodeEventType_eqb type) (listeners (state_of (onDisable s))) = false
  /\ node_emit env type (state_of (onDisable s)) = (tt, state_of (onDisable s), []).
Proof.
  assert (existsb (NodeEventType_eqb type) (listeners (state_of (onDisable s))) = false)
    as Hoff.
  { change (listeners (state_of (onDisable s)))
      with (List.filter (fun t => negb (NodeEventType_eqb SIZE_CHANGED t))
              (List.filter (fun t => negb (NodeEventType_eqb TRANSFORM_CHANGED t))
                 (listeners s))).
    rewrite !existsb_filter_out. destruct type; simpl;
      rewrite ?andb_false_r; reflexivity. }
  split; [reflexivity|]. split; [exact Hoff|].
  unfold node_emit. unfold bind at 1, get. now rewrite Hoff.
Qed.

(** X20. [_updateSubContextView] changes no field, and it does nothing at
    all, posting no message and resizing nothing, when the open data
    context is not set or the adapter is missing or lacks
    [getSystemInfoSync]. *)
Theorem _updateSubContextView_guard (env : Env) (s : State) :
  state_of (_updateSubContextView env s) = s
  /\ (_openDataContext s = None \/ adapter env = None
      \/ (exists a, adapter env = Some a /\ getSystemInfoSync a = None) ->
      _updateSubContextView env s = (tt, s, [])).
Proof.
  unfold _updateSubContextView, bind, get, call, ret, state_of. simpl. split.
  - destruct (_openDataContext s); [|reflexivity].
    now destruct (adapter env) as [[odc [sys|]]|].
  - intros [-> | [-> | (a & -> & Hno)]]; [reflexivity | now destruct (_openDataContext s) |].
    destruct a as [odc sys]. simpl in Hno. subst sys.
    now destruct (_openDataContext s).
Qed.

(** *** [onLoad] *)

(** X21. On a platform that hands out an open data context, [onLoad]
    leaves the component with that context, its shared canvas resized to
    the design resolution, the image asset reset to that canvas and its
    texture created at the design resolution, the content node attached
    with a sprite that has a sprite frame, and the interval set from
    [_fps]; the timer and [enabled] are as they were. *)
Theorem onLoad_sets_up (env : Env) (s : State) (a : Adapter) (ctx : OpenDataContext) :
  adapter env = Some a -> getOpenDataContext a = Some (Some ctx) ->
  let shared := {| canvas_width := width (_designResolutionSize s);
                   canvas_height := height (_designResolutionSize s) |} in
  let s' := state_of (onLoad env s) in
  _openDataContext s' = Some {| canvas := shared |}
  /\ _imageAsset s' =
       texture_create (canvas_width shared) (canvas_height shared)
                      (image_reset shared (_imageAsset s))
  /\ _sprite s' = Some ContentSprite
  /\ _content s' = {| node_sprite := Some {| spriteFrame := Some tt |};
                      node_parent := true |}
  /\ _updateInterval s' = (1000 / _fps s)%float
  /\ _updatedTime s' = _updatedTime s /\ enabled s' = enabled s
  /\ firstn 2 (effects_of (onLoad env s)) =
       [ImageReset shared; TextureCreate (canvas_width shared) (canvas_height shared)].
Proof.
  intros Ha Hctx. destruct a as [odc sys]. simpl in Hctx. subst odc.
  assert (forall s1, state_of (_updateSubContextView env s1) = s1) as Hview.
  { intros s1. unfold _updateSubContextView, bind, get, call, ret, state_of. simpl.
    rewrite Ha. destruct (_openDataContext s1); [|reflexivity]. now destruct sys. }
  cbv zeta. unfold onLoad. rewrite Ha.
  rewrite !SubContextViewFacts.state_bind, Hview.
  rewrite !SubContextViewFacts.effects_bind.
  unfold _initSharedCanvas, _initContentNode, bind, get, modify, call, ret, state_of,
    effects_of.
  simpl. destruct (node_sprite (_content s)) as [[[[]|]]|]; simpl; repeat split.
Qed.

(** *** The [fps] accessors *)

(** X22. Reading [fps] after assigning a number gives a value [===] to
    that number, and assigning the same number again changes nothing; the
    stored value can be the old one where the two are [===] without being
    the same ([+0] and [-0]). A [NaN] is excepted: it is never [===] to
    what is stored. *)
Theorem fps_set_then_get (value : float) (s : State) :
  PrimFloat.eqb value value = true ->
  PrimFloat.eqb (fst (fst (get_fps (state_of (set_fps value s))))) value = true
  /\ set_fps value (state_of (set_fps value s)) = (tt, state_of (set_fps value s), []).
Proof.
  intros Hnum. unfold get_fps, set_fps, bind, get, modify, ret, state_of. simpl.
  destruct (PrimFloat.eqb (_fps s) value) eqn:Hsame; simpl; rewrite ?Hsame, ?Hnum;
    now split.
Qed.

End Facts.

(** *** The statements at concrete inputs *)

Import SampleView.
#[local] Existing Instance SampleView.host.

Lemma inert_without_context_witness :
  offersContext SampleMore.bare = false
  /\ _openDataContext fresh = None
  /\ forallb isNodeCall
       (effects_of (run (C := Sample.runtime) SampleMore.bare
                        [DoOnLoad; DoOnEnable; DoUpdate None 5;
                         DoNodeEvent SIZE_CHANGED] fresh)) = true.
Proof.
  split; [reflexivity|]. split; [reflexivity|].
  exact (proj2 (inert_without_context (C := Sample.runtime) SampleMore.bare
                  [DoOnLoad; DoOnEnable; DoUpdate None 5; DoNodeEvent SIZE_CHANGED]
                  fresh eq_refl eq_refl)).
Defined.

Lemma designResolutionSize_fixed_at_runtime_witness :
  @EDITOR Sample.runtime = false
  /\ _designResolutionSize
       (state_of (run (C := Sample.runtime) env
                      [DoOnLoad; DoSetDesignResolutionSize hd] fresh))
     = _designResolutionSize fresh.
Proof.
  split; [reflexivity|].
  exact (designResolutionSize_fixed_at_runtime (C := Sample.runtime) env
           [DoOnLoad; DoSetDesignResolutionSize hd] fresh eq_refl).
Defined.

Lemma disabled_without_adapter_witness :
  (exists a, adapter SampleMore.bare = Some a /\ getOpenDataContext a = None)
  /\ onLoad SampleMore.bare fresh = (tt, set_enabled false fresh, [])
  /\ enabled (state_of (run (C := Sample.runtime) env [DoOnLoad; DoOnEnable]
                            (set_enabled false fresh))) = false.
Proof.
  assert (exists a, adapter SampleMore.bare = Some a /\ getOpenDataContext a = None)
    as Hbare by (eexists; split; reflexivity).
  destruct (disabled_without_adapter (C := Sample.runtime) SampleMore.bare [] fresh)
    as [Hload _].
  destruct (disabled_without_adapter (C := Sample.runtime) env [DoOnLoad; DoOnEnable]
                                     (set_enabled false fresh)) as [_ Hstay].
  split; [exact Hbare|]. split; [exact (Hload (or_intror Hbare)) | exact (Hstay eq_refl)].
Defined.

Lemma _updateSubContextView_guard_witness :
  _openDataContext fresh = None
  /\ _updateSubContextView env fresh = (tt, fresh, []).
Proof.
  split; [reflexivity|].
  exact (proj2 (_updateSubContextView_guard env fresh) (or_introl eq_refl)).
Defined.

Lemma onLoad_sets_up_witness :
  adapter env = Some wechat
  /\ _openDataContext (state_of (onLoad env fresh))
     = Some {| canvas := {| canvas_width := 640; canvas_height := 960 |} |}
  /\ _sprite (state_of (onLoad env fresh)) = Some ContentSprite.
Proof.
  split; [reflexivity|].
  destruct (onLoad_sets_up env fresh wechat _ eq_refl eq_refl) as (Hctx & _ & Hsprite & _).
  split; [exact Hctx | exact Hsprite].
Defined.

Lemma fps_set_then_get_witness :
  PrimFloat.eqb 30 30 = true
  /\ PrimFloat.eqb (fst (fst (get_fps (state_of (set_fps 30 fresh))))) 30 = true
  /\ set_fps 30 (state_of (set_fps 30 fresh)) = (tt, state_of (set_fps 30 fresh), []).
Proof.
  split; [reflexivity|]. exact (fps_set_then_get 30 fresh eq_refl).
Defined.

End SubContextViewMoreFacts.
